(** * Authentication core of the knowledge-store API

    A shallow embedding of [src/utils/auth.ts] (class [AuthUtils]) and of
    [src/controllers/authController.ts] (class [AuthController]), together
    with the statements proved about them.

    The libraries the code calls (jsonwebtoken, bcryptjs, zod, nodemailer,
    the Google client, the database client) are modelled by what the code
    relies on: a token is its claims with a keyed digest, the digests and
    the email pattern are parameters, and what the network answers is part
    of the surroundings [Env] of a request.

    Conventions.
    - A [string] is a JavaScript string; each character stands for one
      UTF-16 code unit (the Latin-1 range), so [String.length] is [.length].
    - Times are milliseconds since the epoch ([Date.now()]), in [Z].
    - A handler is a computation over the database that either returns the
      response it sent or throws; a throw keeps the writes already made.
    - The database is reachable. What it refuses is what the migration
      declares for the [users] table: a second row with the same id, email
      or googleId.
    - [generateAccessToken] and [generateRefreshToken] are the tokens that
      [jwt.sign] returns; that it throws without a secret is
      [AuthUtils.generate_check], which the handlers run where the code
      calls the two generators. *)

From Stdlib Require Import String Ascii List ZArith Bool Lia.
Import ListNotations.
Local Open Scope string_scope.
Local Open Scope Z_scope.

(* ================================================================== *)
(** * Data model *)

Module User.
(** A row of the [users] table, with the columns the controller touches. *)
Record t := mk {
  id : string;
  email : string;
  name : string;
  password : option string;
  isVerified : bool;
  verificationToken : option string;
  verificationExpires : option Z;
  resetPasswordToken : option string;
  resetPasswordExpires : option Z;
  googleId : option string;
  picture : option string;
  createdAt : Z
}.
End User.

(** Claims carried by a token signed in [AuthUtils]: the payload
    [{ userId, type }] plus the [iat] and [exp] that [jwt.sign] adds
    (seconds since the epoch). *)
Record Claims := mkClaims {
  jwt_userId : string;
  jwt_type : string;
  jwt_iat : Z;
  jwt_exp : Z
}.

(** A string handed to the JWT library: either the compact serialisation of
    some claims with a signature, or anything else. *)
Inductive JwtString :=
| Malformed (raw : string)
| Compact (claims : Claims) (signature : string).

Module RefreshToken.
(** A row of the [refresh_tokens] table. *)
Record t := mk {
  token : JwtString;
  userId : string;
  expiresAt : Z
}.
End RefreshToken.

(** The database: the two tables the authentication core reads and writes. *)
Record Store := mkStore {
  users : list User.t;
  refreshTokens : list RefreshToken.t
}.

(** Modelled from the spec: the default of the [isVerified] column (the
    schema that declares the column is not among the sources); a user
    created by signup starts unverified. *)
Definition default_isVerified : bool := false.

(** What the Google client hands back: the payload of an ID token, or the
    data of the userinfo endpoint. Every field may be missing. *)
Record GoogleUser := mkGoogleUser {
  sub : option string;
  g_email : option string;
  g_name : option string;
  given_name : option string;
  g_picture : option string
}.

(** Thrown values. A [ZodError] carries its issues, first one apart. *)
Inductive exn :=
| ZodError (first : string) (rest : list string)
| Error (message : string).

(** Everything a single request reads from outside the database. *)
Record Env := mkEnv {
  now : Z;                          (* Date.now() *)
  JWT_SECRET : string;              (* process.env.JWT_SECRET; empty: not set *)
  JWT_ACCESS_EXPIRES : option Z;    (* seconds, when configured *)
  JWT_REFRESH_EXPIRES : option Z;   (* seconds, when configured *)
  randomBytes : string;             (* crypto.randomBytes(32).toString("hex") *)
  salt : string;                    (* the salt bcrypt draws *)
  cuid : string;                    (* id the database gives a created user *)
  sendMail : bool;                  (* false: the mail transporter rejects *)
  verifyIdToken : string -> exn + option GoogleUser;
  userinfo : string -> exn + GoogleUser
}.

(** The request body: the JSON fields the handlers read, each a string or
    missing. *)
Record Body := mkBody {
  b_email : option string;
  b_password : option string;
  b_name : option string;
  b_token : option string;
  b_refreshToken : option JwtString
}.

(** The projections of a user the responses carry ([select] clauses). *)
Record UserView := mkView {
  v_id : string;
  v_email : string;
  v_name : string;
  v_isVerified : bool;
  v_picture : option (option string);   (* only the Google response has it *)
  v_createdAt : option Z                (* only the signup response has it *)
}.

Record Tokens := mkTokens {
  accessToken : JwtString;
  refreshToken : JwtString
}.

(** The JSON bodies the controller sends, by shape. *)
Inductive Json :=
| J_error (error : string)
| J_error_code (error code : string)
| J_message (message : string)
| J_message_user (message : string) (user : UserView)
| J_message_user_tokens (message : string) (user : UserView) (tokens : Tokens)
| J_accessToken_user (accessToken : JwtString) (user : option UserView).

Record Response := mkResponse {
  status : Z;
  json : Json
}.

(** [res.status(n).json(b)] and [res.json(b)]. *)
Definition res_status_json (n : Z) (b : Json) : Response := mkResponse n b.
Definition res_json (b : Json) : Response := mkResponse 200 b.

(* ================================================================== *)
(** * Computations over the database that may throw *)

Definition M (A : Type) : Type := Store -> (exn + A) * Store.

Definition ret {A} (a : A) : M A := fun s => (inr a, s).

Definition throw {A} (e : exn) : M A := fun s => (inl e, s).

Definition bind {A B} (m : M A) (k : A -> M B) : M B :=
  fun s =>
    match m s with
    | (inr a, s') => k a s'
    | (inl e, s') => (inl e, s')
    end.

(** [try { m } catch (e) { h e }]: the writes made by [m] before it threw
    are kept. *)
Definition try_catch {A} (m : M A) (h : exn -> M A) : M A :=
  fun s =>
    match m s with
    | (inl e, s') => h e s'
    | r => r
    end.

(** A synchronous call that returns or throws. *)
Definition lift {A} (r : exn + A) : M A :=
  match r with
  | inr a => ret a
  | inl e => throw e
  end.

Declare Scope auth_scope.
Delimit Scope auth_scope with auth.
Notation "x <- m ;; k" := (bind m (fun x => k))
  (at level 100, m at next level, right associativity) : auth_scope.
Notation "m ;;; k" := (bind m (fun _ => k))
  (at level 100, right associativity) : auth_scope.
Local Open Scope auth_scope.

(* ================================================================== *)
(** * JavaScript truthiness of the values the code tests *)

(** [!s] for a string that may be [null] or [undefined]. *)
Definition falsy (s : option string) : bool :=
  match s with
  | None => true
  | Some s => String.eqb s ""
  end.

Definition falsy_token (t : option JwtString) : bool :=
  match t with
  | None => true
  | Some (Malformed raw) => String.eqb raw ""
  | Some (Compact _ _) => false
  end.

(** [a || b] on strings. *)
Definition or_else (a : option string) (b : string) : string :=
  match a with
  | Some s => if String.eqb s "" then b else s
  | None => b
  end.

Definition Claims_eqb (a b : Claims) : bool :=
  String.eqb (jwt_userId a) (jwt_userId b) && String.eqb (jwt_type a) (jwt_type b)
  && (jwt_iat a =? jwt_iat b) && (jwt_exp a =? jwt_exp b).

(** [===] on token strings. *)
Definition JwtString_eqb (a b : JwtString) : bool :=
  match a, b with
  | Malformed x, Malformed y => String.eqb x y
  | Compact c sg, Compact c' sg' => Claims_eqb c c' && String.eqb sg sg'
  | _, _ => false
  end.

(* ================================================================== *)
(** * The database client *)

Module prisma.

Module user.
(** [findUnique({ where: { email } })] *)
Definition findUnique (email : string) : M (option User.t) :=
  fun s => (inr (find (fun u => String.eqb (User.email u) email) (users s)), s).

(** [findFirst({ where })] *)
Definition findFirst (where_ : User.t -> bool) : M (option User.t) :=
  fun s => (inr (find where_ (users s)), s).

(** The primary key and the unique indexes of the table ([users_pkey],
    [users_email_key] and [users_googleId_key] of the migration): whether
    some row carries the id, the email, resp. the googleId. A null googleId
    collides with nothing. *)
Definition id_taken (id : string) (rows : list User.t) : bool :=
  existsb (fun u => String.eqb (User.id u) id) rows.

Definition email_taken (email : string) (rows : list User.t) : bool :=
  existsb (fun u => String.eqb (User.email u) email) rows.

Definition googleId_taken (googleId : option string) (rows : list User.t) : bool :=
  match googleId with
  | None => false
  | Some g =>
      existsb (fun u => match User.googleId u with
                        | Some x => String.eqb x g
                        | None => false
                        end) rows
  end.

Definition same_googleId (a b : option string) : bool :=
  match a, b with
  | Some x, Some y => String.eqb x y
  | None, None => true
  | _, _ => false
  end.

(** [create({ data })]: the row is appended; throws, writing nothing, when
    a row carries the id, the email or the googleId already. *)
Definition create (data : User.t) : M User.t :=
  fun s =>
    if id_taken (User.id data) (users s) then
      (inl (Error "Unique constraint failed on the fields: (`id`)"), s)
    else if email_taken (User.email data) (users s) then
      (inl (Error "Unique constraint failed on the fields: (`email`)"), s)
    else if googleId_taken (User.googleId data) (users s) then
      (inl (Error "Unique constraint failed on the fields: (`googleId`)"), s)
    else (inr data, mkStore (users s ++ [data]) (refreshTokens s)).

(** [update({ where: { id }, data })]: rewrites the row with that id and
    returns it; throws, writing nothing, when there is none, or when the
    data give the row a googleId that a row with another id carries (the
    only unique column an update of the controller writes). *)
Definition update (id : string) (data : User.t -> User.t) : M User.t :=
  fun s =>
    match find (fun u => String.eqb (User.id u) id) (users s) with
    | None => (inl (Error "Record to update not found."), s)
    | Some u =>
        if negb (same_googleId (User.googleId (data u)) (User.googleId u))
           && googleId_taken (User.googleId (data u))
                (filter (fun x => negb (String.eqb (User.id x) id)) (users s))
        then (inl (Error "Unique constraint failed on the fields: (`googleId`)"), s)
        else
          (inr (data u),
           mkStore (map (fun x => if String.eqb (User.id x) id then data x else x)
                        (users s))
                   (refreshTokens s))
    end.
End user.

Module refreshToken.
Definition create (data : RefreshToken.t) : M RefreshToken.t :=
  fun s => (inr data, mkStore (users s) (refreshTokens s ++ [data])).

Definition findFirst (where_ : RefreshToken.t -> bool) : M (option RefreshToken.t) :=
  fun s => (inr (find where_ (refreshTokens s)), s).

(** [deleteMany({ where })] *)
Definition deleteMany (where_ : RefreshToken.t -> bool) : M unit :=
  fun s => (inr tt, mkStore (users s) (filter (fun r => negb (where_ r)) (refreshTokens s))).
End refreshToken.

End prisma.

(* ================================================================== *)
(** * The JWT library, as the code uses it *)

Module jwt.
(** [jwt.sign] throws when the secret is empty or unset; otherwise it
    returns the token [sign] below. *)
Definition sign_throws (secret : string) : bool := String.eqb secret "".

Section Hmac.
(** The keyed digest under the signature. *)
Variable hmac : string -> Claims -> string.

(** [jwt.sign({ userId, type }, secret, { expiresIn })] at time [now]. *)
Definition sign (userId type secret : string) (expiresIn now : Z) : JwtString :=
  let iat := now / 1000 in
  let claims := mkClaims userId type iat (iat + expiresIn) in
  Compact claims (hmac secret claims).

(** [jwt.verify(token, secret)] at time [now]: the claims, or a throw on
    a malformed string, a wrong signature or an elapsed expiry. *)
Definition verify (token : JwtString) (secret : string) (now : Z) : exn + Claims :=
  match token with
  | Malformed _ => inl (Error "jwt malformed")
  | Compact claims signature =>
      if negb (String.eqb signature (hmac secret claims))
      then inl (Error "invalid signature")
      else if now / 1000 >=? jwt_exp claims
      then inl (Error "jwt expired")
      else inr claims
  end.
End Hmac.
End jwt.

(* ================================================================== *)
(** * Regular expressions of the password policy *)

(** [.] does not match a line terminator. *)
Definition line_terminator (c : ascii) : bool :=
  (nat_of_ascii c =? 10)%nat || (nat_of_ascii c =? 13)%nat.

(** The lookahead [(?=.*[cls])] tried at the head of [s]. *)
Fixpoint lookahead_dot_star (cls : ascii -> bool) (s : string) : bool :=
  match s with
  | EmptyString => false
  | String c rest => cls c || (negb (line_terminator c) && lookahead_dot_star cls rest)
  end.

(** [/(?=.*[cls])/.test(s)]: the pattern is not anchored, so every start
    index is tried. *)
Fixpoint regex_test (cls : ascii -> bool) (s : string) : bool :=
  lookahead_dot_star cls s
  || match s with
     | EmptyString => false
     | String _ rest => regex_test cls rest
     end.

Definition in_range (lo hi : nat) (c : ascii) : bool :=
  (lo <=? nat_of_ascii c)%nat && (nat_of_ascii c <=? hi)%nat.

Definition class_a_z : ascii -> bool := in_range 97 122.
Definition class_A_Z : ascii -> bool := in_range 65 90.
Definition class_digit : ascii -> bool := in_range 48 57.
(** [[@$!%*?&]] *)
Definition class_special (c : ascii) : bool :=
  existsb (Ascii.eqb c) ["@"; "$"; "!"; "%"; "*"; "?"; "&"]%char.

(* ================================================================== *)
(** * [AuthUtils] *)

Module AuthUtils.

(** The result [{ valid, message? }] of the policy. *)
Record PasswordCheck := mkCheck {
  valid : bool;
  message : option string
}.

Definition isPasswordStrong (password : string) : PasswordCheck :=
  if (String.length password <? 8)%nat then
    mkCheck false (Some "Password must be at least 8 characters long")
  else if negb (regex_test class_a_z password) then
    mkCheck false (Some "Password must contain at least one lowercase letter")
  else if negb (regex_test class_A_Z password) then
    mkCheck false (Some "Password must contain at least one uppercase letter")
  else if negb (regex_test class_digit password) then
    mkCheck false (Some "Password must contain at least one number")
  else if negb (regex_test class_special password) then
    mkCheck false (Some "Password must contain at least one special character")
  else mkCheck true None.

Definition generateResetToken (env : Env) : string := randomBytes env.
Definition generateVerificationToken (env : Env) : string := randomBytes env.

(** [process.env.JWT_ACCESS_EXPIRES || "15m"] and
    [process.env.JWT_REFRESH_EXPIRES || "7d"], in seconds. *)
Definition access_expires (env : Env) : Z :=
  match JWT_ACCESS_EXPIRES env with
  | Some d => d
  | None => 15 * 60
  end.

Definition refresh_expires (env : Env) : Z :=
  match JWT_REFRESH_EXPIRES env with
  | Some d => d
  | None => 7 * 24 * 60 * 60
  end.

(** What [generateAccessToken] and [generateRefreshToken] throw, if they
    throw: the error of [jwt.sign] for a missing secret. When they return,
    they return the tokens below. A handler that calls the generators runs
    this check first, at the place of the first call. *)
Definition generate_check (env : Env) : exn + unit :=
  if jwt.sign_throws (JWT_SECRET env)
  then inl (Error "secretOrPrivateKey must have a value")
  else inr tt.

Section Crypto.
Variable hmac : string -> Claims -> string.
Variable bcrypt_hash : string -> string -> string.      (* password, salt *)
Variable bcrypt_compare : string -> string -> bool.

Definition hashPassword (env : Env) (password : string) : string :=
  bcrypt_hash password (salt env).

Definition comparePassword (password hashedPassword : string) : bool :=
  bcrypt_compare password hashedPassword.

Definition generateAccessToken (env : Env) (userId : string) : JwtString :=
  jwt.sign hmac userId "access" (JWT_SECRET env) (access_expires env) (now env).

Definition generateRefreshToken (env : Env) (userId : string) : JwtString :=
  jwt.sign hmac userId "refresh" (JWT_SECRET env) (refresh_expires env) (now env).

(** The inner [try] of the two verifiers: what [jwt.verify] returns,
    then the check of the [type] claim. *)
Definition verify_kind (kind : string) (env : Env) (token : JwtString) : exn + string :=
  match jwt.verify hmac token (JWT_SECRET env) (now env) with
  | inl e => inl e
  | inr decoded =>
      if negb (String.eqb (jwt_type decoded) kind)
      then inl (Error "Invalid token type")
      else inr (jwt_userId decoded)
  end.

Definition verifyAccessToken (env : Env) (token : JwtString) : exn + string :=
  match verify_kind "access" env token with
  | inr userId => inr userId
  | inl _ => inl (Error "Invalid or expired token")
  end.

Definition verifyRefreshToken (env : Env) (token : JwtString) : exn + string :=
  match verify_kind "refresh" env token with
  | inr userId => inr userId
  | inl _ => inl (Error "Invalid or expired refresh token")
  end.
End Crypto.

End AuthUtils.

(* ================================================================== *)
(** * Request validation (the zod schemas of the controller) *)

(** [v] when it is truthy. *)
Definition truthy (v : option string) : option string :=
  if falsy v then None else v.

Definition truthy_token (v : option JwtString) : option JwtString :=
  if falsy_token v then None else v.

Module z.
Section Email.
(** The email pattern of the validation library. *)
Variable isEmail : string -> bool.

(** Issues of [z.string().email(msg)] on a field. *)
Definition string_email (msg : string) (v : option string) : list string :=
  match v with
  | None => ["Required"]
  | Some s => if isEmail s then [] else [msg]
  end.

(** Issues of [z.string().min(n, msg)] on a field. *)
Definition string_min (n : nat) (msg : string) (v : option string) : list string :=
  match v with
  | None => ["Required"]
  | Some s => if (String.length s <? n)%nat then [msg] else []
  end.

(** [schema.parse]: the parsed value when no field raised an issue, a
    [ZodError] with the issues in field order otherwise. *)
Definition parse {A} (issues : list string) (value : option A) : exn + A :=
  match issues, value with
  | [], Some a => inr a
  | i :: rest, _ => inl (ZodError i rest)
  | [], None => inl (ZodError "Required" [])
  end.

Definition signupSchema (body : Body) : exn + (string * string * string) :=
  parse (string_email "Invalid email address" (b_email body)
         ++ string_min 8 "Password must be at least 8 characters" (b_password body)
         ++ string_min 1 "Name is required" (b_name body))
        match b_email body, b_password body, b_name body with
        | Some e, Some p, Some n => Some (e, p, n)
        | _, _, _ => None
        end.

Definition loginSchema (body : Body) : exn + (string * string) :=
  parse (string_email "Invalid email address" (b_email body)
         ++ string_min 1 "Password is required" (b_password body))
        match b_email body, b_password body with
        | Some e, Some p => Some (e, p)
        | _, _ => None
        end.

Definition forgotPasswordSchema (body : Body) : exn + string :=
  parse (string_email "Invalid email address" (b_email body)) (b_email body).

Definition resetPasswordSchema (body : Body) : exn + (string * string) :=
  parse (string_min 1 "Token is required" (b_token body)
         ++ string_min 8 "Password must be at least 8 characters" (b_password body))
        match b_token body, b_password body with
        | Some t, Some p => Some (t, p)
        | _, _ => None
        end.
End Email.
End z.

(* ================================================================== *)
(** * The email service *)

Module emailService.
(** Each method awaits the transporter's [sendMail], which rejects when the
    delivery fails. *)
Definition send (env : Env) : M unit :=
  if sendMail env then ret tt else throw (Error "sendMail rejected").

Definition sendVerificationEmail (env : Env) (email name token : string) : M unit :=
  send env.
Definition sendPasswordResetEmail (env : Env) (email name token : string) : M unit :=
  send env.
Definition sendPasswordChangeNotification (env : Env) (email name : string) : M unit :=
  send env.
End emailService.

(* ================================================================== *)
(** * [AuthController] *)

Module AuthController.

Definition hour : Z := 60 * 60 * 1000.
Definition day : Z := 24 * hour.

(** [select: { id, email, name, isVerified }] *)
Definition select_basic (u : User.t) : UserView :=
  mkView (User.id u) (User.email u) (User.name u) (User.isVerified u) None None.

(** [select: { id, email, name, isVerified, createdAt }] *)
Definition select_created (u : User.t) : UserView :=
  mkView (User.id u) (User.email u) (User.name u) (User.isVerified u) None
         (Some (User.createdAt u)).

(** [{ id, email, name, picture, isVerified }] *)
Definition select_google (u : User.t) : UserView :=
  mkView (User.id u) (User.email u) (User.name u) (User.isVerified u)
         (Some (User.picture u)) None.

(** The last [catch] of most handlers. *)
Definition on_error (e : exn) : M Response :=
  match e with
  | ZodError first _ => ret (res_status_json 400 (J_error first))
  | Error _ => ret (res_status_json 500 (J_error "Internal server error"))
  end.

Definition internal_error (e : exn) : M Response :=
  ret (res_status_json 500 (J_error "Internal server error")).

Definition option_eqb (v : option string) (s : string) : bool :=
  match v with
  | Some x => String.eqb x s
  | None => false
  end.

(** [{ gt: new Date() }] on a nullable date column. *)
Definition option_gt (v : option Z) (t : Z) : bool :=
  match v with
  | Some x => x >? t
  | None => false
  end.

Section Handlers.
Variable hmac : string -> Claims -> string.
Variable bcrypt_hash : string -> string -> string.
Variable bcrypt_compare : string -> string -> bool.
Variable isEmail : string -> bool.

Definition signup (env : Env) (body : Body) : M Response :=
  try_catch
    (parsed <- lift (z.signupSchema isEmail body) ;;
     let '(email, password, name) := parsed in
     let passwordCheck := AuthUtils.isPasswordStrong password in
     if negb (AuthUtils.valid passwordCheck) then
       ret (res_status_json 400
              (J_error (match AuthUtils.message passwordCheck with
                        | Some m => m
                        | None => ""
                        end)))
     else
       existingUser <- prisma.user.findUnique email ;;
       match existingUser with
       | Some _ =>
           ret (res_status_json 409 (J_error "User already exists with this email"))
       | None =>
           let hashedPassword := AuthUtils.hashPassword bcrypt_hash env password in
           let verificationToken := AuthUtils.generateVerificationToken env in
           let verificationExpires := now env + day in
           user <- prisma.user.create
                     (User.mk (cuid env) email name (Some hashedPassword) default_isVerified
                              (Some verificationToken) (Some verificationExpires)
                              None None None None (now env)) ;;
           (try_catch
              (emailService.sendVerificationEmail env email name verificationToken)
              (fun emailError => ret tt)) ;;;
           ret (res_status_json 201
                  (J_message_user
                     "Account created successfully. Please check your email to verify your account."
                     (select_created user)))
       end)
    on_error.

Definition login (env : Env) (body : Body) : M Response :=
  try_catch
    (parsed <- lift (z.loginSchema isEmail body) ;;
     let '(email, password) := parsed in
     user <- prisma.user.findUnique email ;;
     match user with
     | None => ret (res_status_json 401 (J_error "Invalid email or password"))
     | Some user =>
         match truthy (User.password user) with
         | None => ret (res_status_json 401 (J_error "Invalid email or password"))
         | Some user_password =>
             let isValidPassword :=
               AuthUtils.comparePassword bcrypt_compare password user_password in
             if negb isValidPassword then
               ret (res_status_json 401 (J_error "Invalid email or password"))
             else if negb (User.isVerified user) then
               ret (res_status_json 401
                      (J_error_code "Please verify your email address before logging in"
                                    "EMAIL_NOT_VERIFIED"))
             else
               lift (AuthUtils.generate_check env) ;;;
               let accessToken := AuthUtils.generateAccessToken hmac env (User.id user) in
               let refreshToken := AuthUtils.generateRefreshToken hmac env (User.id user) in
               let refreshTokenExpires := now env + 7 * day in
               prisma.refreshToken.create
                 (RefreshToken.mk refreshToken (User.id user) refreshTokenExpires) ;;;
               ret (res_json
                      (J_message_user_tokens "Login successful"
                         (select_basic user)
                         (mkTokens accessToken refreshToken)))
         end
     end)
    on_error.

(** The [data] of the update in [verifyEmail]. *)
Definition set_verified (u : User.t) : User.t :=
  User.mk (User.id u) (User.email u) (User.name u) (User.password u)
          true None None
          (User.resetPasswordToken u) (User.resetPasswordExpires u)
          (User.googleId u) (User.picture u) (User.createdAt u).

(** The [data] of the update in [resendVerification]. *)
Definition set_verification (verificationToken : string) (verificationExpires : Z)
           (u : User.t) : User.t :=
  User.mk (User.id u) (User.email u) (User.name u) (User.password u) (User.isVerified u)
          (Some verificationToken) (Some verificationExpires)
          (User.resetPasswordToken u) (User.resetPasswordExpires u)
          (User.googleId u) (User.picture u) (User.createdAt u).

(** The [data] of the update in [forgotPassword]. *)
Definition set_reset (resetToken : string) (resetExpires : Z) (u : User.t) : User.t :=
  User.mk (User.id u) (User.email u) (User.name u) (User.password u) (User.isVerified u)
          (User.verificationToken u) (User.verificationExpires u)
          (Some resetToken) (Some resetExpires)
          (User.googleId u) (User.picture u) (User.createdAt u).

(** [token] is the route parameter. *)
Definition verifyEmail (env : Env) (token : string) : M Response :=
  try_catch
    (user <- prisma.user.findFirst
               (fun u => option_eqb (User.verificationToken u) token
                         && option_gt (User.verificationExpires u) (now env)) ;;
     match user with
     | None =>
         ret (res_status_json 400 (J_error "Invalid or expired verification token"))
     | Some user =>
         prisma.user.update (User.id user)
           set_verified ;;;
         ret (res_json (J_message "Email verified successfully"))
     end)
    internal_error.

Definition resendVerification (env : Env) (body : Body) : M Response :=
  try_catch
    (match b_email body with
     | None => throw (Error "Argument `where` needs at least one argument")
     | Some email =>
         user <- prisma.user.findUnique email ;;
         match user with
         | None => ret (res_status_json 404 (J_error "User not found"))
         | Some user =>
             if User.isVerified user then
               ret (res_status_json 400 (J_error "Email is already verified"))
             else
               let verificationToken := AuthUtils.generateVerificationToken env in
               let verificationExpires := now env + day in
               prisma.user.update (User.id user)
                 (set_verification verificationToken verificationExpires) ;;;
               emailService.sendVerificationEmail env email
                 (or_else (Some (User.name user)) "User") verificationToken ;;;
               ret (res_json (J_message "Verification email sent successfully"))
         end
     end)
    internal_error.

Definition forgot_message : string :=
  "If an account with that email exists, we have sent a password reset link.".

Definition forgotPassword (env : Env) (body : Body) : M Response :=
  try_catch
    (email <- lift (z.forgotPasswordSchema isEmail body) ;;
     user <- prisma.user.findUnique email ;;
     match user with
     | None => ret (res_json (J_message forgot_message))
     | Some user =>
         let resetToken := AuthUtils.generateResetToken env in
         let resetExpires := now env + hour in
         prisma.user.update (User.id user)
           (set_reset resetToken resetExpires) ;;;
         emailService.sendPasswordResetEmail env email
           (or_else (Some (User.name user)) "User") resetToken ;;;
         ret (res_json (J_message forgot_message))
     end)
    on_error.

(** The [data] of the update in [resetPassword]. *)
Definition set_password (hashedPassword : string) (u : User.t) : User.t :=
  User.mk (User.id u) (User.email u) (User.name u)
          (Some hashedPassword) (User.isVerified u)
          (User.verificationToken u) (User.verificationExpires u)
          None None
          (User.googleId u) (User.picture u) (User.createdAt u).

Definition resetPassword (env : Env) (body : Body) : M Response :=
  try_catch
    (parsed <- lift (z.resetPasswordSchema body) ;;
     let '(token, password) := parsed in
     let passwordCheck := AuthUtils.isPasswordStrong password in
     if negb (AuthUtils.valid passwordCheck) then
       ret (res_status_json 400
              (J_error (match AuthUtils.message passwordCheck with
                        | Some m => m
                        | None => ""
                        end)))
     else
       user <- prisma.user.findFirst
                 (fun u => option_eqb (User.resetPasswordToken u) token
                           && option_gt (User.resetPasswordExpires u) (now env)) ;;
       match user with
       | None => ret (res_status_json 400 (J_error "Invalid or expired reset token"))
       | Some user =>
           let hashedPassword := AuthUtils.hashPassword bcrypt_hash env password in
           prisma.user.update (User.id user) (set_password hashedPassword) ;;;
           prisma.refreshToken.deleteMany
             (fun r => String.eqb (RefreshToken.userId r) (User.id user)) ;;;
           (try_catch
              (emailService.sendPasswordChangeNotification env (User.email user)
                 (or_else (Some (User.name user)) "User"))
              (fun emailError => ret tt)) ;;;
           ret (res_json (J_message "Password reset successfully"))
       end)
    on_error.

(** The [include: { user: { select } }] of the lookup in [refreshToken]. *)
Definition include_user (s : Store) (r : RefreshToken.t) : option UserView :=
  option_map select_basic
    (find (fun u => String.eqb (User.id u) (RefreshToken.userId r)) (users s)).

Definition refreshToken (env : Env) (body : Body) : M Response :=
  try_catch
    (match truthy_token (b_refreshToken body) with
     | None => ret (res_status_json 401 (J_error "Refresh token is required"))
     | Some refreshToken =>
         decoded_userId <- lift (AuthUtils.verifyRefreshToken hmac env refreshToken) ;;
         storedToken <- prisma.refreshToken.findFirst
                          (fun r => JwtString_eqb (RefreshToken.token r) refreshToken
                                    && String.eqb (RefreshToken.userId r) decoded_userId
                                    && (RefreshToken.expiresAt r >? now env)) ;;
         match storedToken with
         | None =>
             ret (res_status_json 401 (J_error "Invalid or expired refresh token"))
         | Some storedToken =>
             lift (AuthUtils.generate_check env) ;;;
             let newAccessToken :=
               AuthUtils.generateAccessToken hmac env decoded_userId in
             fun s =>
               ret (res_json (J_accessToken_user newAccessToken
                                (include_user s storedToken))) s
         end
     end)
    (fun error =>
       ret (res_status_json 401 (J_error "Invalid or expired refresh token"))).

Definition logout (env : Env) (body : Body) : M Response :=
  try_catch
    ((match truthy_token (b_refreshToken body) with
      | Some refreshToken =>
          prisma.refreshToken.deleteMany
            (fun r => JwtString_eqb (RefreshToken.token r) refreshToken)
      | None => ret tt
      end) ;;;
     ret (res_json (J_message "Logged out successfully")))
    internal_error.

(** [userId] is what the request authenticator attached to the request. *)
Definition logoutAll (env : Env) (userId : string) : M Response :=
  try_catch
    (prisma.refreshToken.deleteMany
       (fun r => String.eqb (RefreshToken.userId r) userId) ;;;
     ret (res_json (J_message "Logged out from all devices successfully")))
    internal_error.

(** The nested [try]s of [googleAuth]: the payload of the ID token, or
    else the userinfo data, or else the 401 already sent. *)
Definition google_verify (env : Env) (token : string) : Response + option GoogleUser :=
  match verifyIdToken env token with
  | inr payload => inr payload
  | inl idTokenError =>
      match userinfo env token with
      | inr data => inr (Some data)
      | inl accessTokenError =>
          inl (res_status_json 401 (J_error "Invalid Google token"))
      end
  end.

(** The [data] of the update in [googleAuth]; an [undefined] picture
    leaves the column as it is. *)
Definition set_google (googleId : option string) (picture : option string)
           (u : User.t) : User.t :=
  User.mk (User.id u) (User.email u) (User.name u) (User.password u)
          true
          (User.verificationToken u) (User.verificationExpires u)
          (User.resetPasswordToken u) (User.resetPasswordExpires u)
          googleId
          (match picture with Some p => Some p | None => User.picture u end)
          (User.createdAt u).

Definition new_google_user (env : Env) (email : string) (g : GoogleUser) : User.t :=
  User.mk (cuid env) email
          (or_else (g_name g) (or_else (given_name g) "User"))
          None true None None None None
          (sub g) (g_picture g) (now env).

Definition googleAuth (env : Env) (body : Body) : M Response :=
  try_catch
    (match truthy (b_token body) with
     | None => ret (res_status_json 400 (J_error "Google token is required"))
     | Some token =>
         match google_verify env token with
         | inl sent => ret sent
         | inr googleUser =>
             match googleUser with
             | None =>
                 ret (res_status_json 401
                        (J_error "Unable to get user info from Google token"))
             | Some googleUser =>
                 match truthy (g_email googleUser) with
                 | None =>
                     ret (res_status_json 401
                            (J_error "Unable to get user info from Google token"))
                 | Some email =>
                     found <- prisma.user.findUnique email ;;
                     user <- match found with
                             | Some user =>
                                 if falsy (User.googleId user)
                                    && negb (falsy (sub googleUser))
                                 then prisma.user.update (User.id user)
                                        (set_google (sub googleUser)
                                                    (g_picture googleUser))
                                 else ret user
                             | None =>
                                 prisma.user.create
                                   (new_google_user env email googleUser)
                             end ;;
                     lift (AuthUtils.generate_check env) ;;;
                     let accessToken :=
                       AuthUtils.generateAccessToken hmac env (User.id user) in
                     let refreshToken :=
                       AuthUtils.generateRefreshToken hmac env (User.id user) in
                     let refreshTokenExpires := now env + 7 * day in
                     prisma.refreshToken.create
                       (RefreshToken.mk refreshToken (User.id user)
                                        refreshTokenExpires) ;;;
                     ret (res_json
                            (J_message_user_tokens "Google authentication successful"
                               (select_google user)
                               (mkTokens accessToken refreshToken)))
                 end
             end
         end
     end)
    internal_error.
End Handlers.

End AuthController.

(* ================================================================== *)
(** * The password policy in the words of the specification *)

Module PasswordPolicy.
(** "contains a character of the class". *)
Definition contains (cls : ascii -> bool) (s : string) : bool :=
  existsb cls (list_ascii_of_string s).

Record Rule := mkRule {
  passes : string -> bool;
  reason : string
}.

(** The five rules, in the order the specification lists them. *)
Definition rules : list Rule :=
  [ mkRule (fun p => (8 <=? String.length p)%nat)
           "Password must be at least 8 characters long";
    mkRule (contains class_a_z)
           "Password must contain at least one lowercase letter";
    mkRule (contains class_A_Z)
           "Password must contain at least one uppercase letter";
    mkRule (contains class_digit)
           "Password must contain at least one number";
    mkRule (contains class_special)
           "Password must contain at least one special character" ].

(** First failure wins. *)
Definition check (p : string) : AuthUtils.PasswordCheck :=
  match find (fun r => negb (passes r p)) rules with
  | Some r => AuthUtils.mkCheck false (Some (reason r))
  | None => AuthUtils.mkCheck true None
  end.
End PasswordPolicy.

(* ================================================================== *)
(** * Invariants and views of the store *)

(** A stored refresh-token row carries a token whose [userId] claim is the
    row's owner: the rows [login] and [googleAuth] write are of this kind. *)
Definition row_owned (r : RefreshToken.t) : bool :=
  match RefreshToken.token r with
  | Compact c _ => String.eqb (jwt_userId c) (RefreshToken.userId r)
  | Malformed _ => false
  end.

Definition rows_owned (s : Store) : bool := forallb row_owned (refreshTokens s).

(** The rows of a user. *)
Definition rows_of (userId : string) (s : Store) : list RefreshToken.t :=
  filter (fun r => String.eqb (RefreshToken.userId r) userId) (refreshTokens s).

(** The user rows with a given id, and with a given email. *)
Definition by_id (id : string) (s : Store) : list User.t :=
  filter (fun u => String.eqb (User.id u) id) (users s).

Definition by_email (email : string) (s : Store) : option User.t :=
  find (fun u => String.eqb (User.email u) email) (users s).

Definition set_isVerified (v : bool) (u : User.t) : User.t :=
  User.mk (User.id u) (User.email u) (User.name u) (User.password u) v
          (User.verificationToken u) (User.verificationExpires u)
          (User.resetPasswordToken u) (User.resetPasswordExpires u)
          (User.googleId u) (User.picture u) (User.createdAt u).

(** The store with the [isVerified] flag of the account [email] set to [v]. *)
Definition with_isVerified (email : string) (v : bool) (s : Store) : Store :=
  mkStore
    (map (fun u => if String.eqb (User.email u) email then set_isVerified v u else u)
         (users s))
    (refreshTokens s).

(** The store after the user row [id] was rewritten by [data]. *)
Definition updated (id : string) (data : User.t -> User.t) (s : Store) : Store :=
  mkStore (map (fun x => if String.eqb (User.id x) id then data x else x) (users s))
          (refreshTokens s).

(** The store after the refresh-token rows of [userId] were deleted. *)
Definition without_rows (userId : string) (s : Store) : Store :=
  mkStore (users s)
          (filter (fun r => negb (String.eqb (RefreshToken.userId r) userId))
                  (refreshTokens s)).

(** The primary key of the [users] table: no two rows share an id. *)
Fixpoint distinct (l : list string) : bool :=
  match l with
  | [] => true
  | x :: rest => negb (existsb (String.eqb x) rest) && distinct rest
  end.

Definition users_pkey (s : Store) : bool := distinct (map User.id (users s)).

(** The same surroundings with the mail transporter working or not. *)
Definition with_sendMail (ok : bool) (env : Env) : Env :=
  mkEnv (now env) (JWT_SECRET env) (JWT_ACCESS_EXPIRES env) (JWT_REFRESH_EXPIRES env)
        (randomBytes env) (salt env) (cuid env) ok (verifyIdToken env) (userinfo env).

(** Whether a response carries tokens. *)
Definition carries_tokens (r : Response) : bool :=
  match json r with
  | J_message_user_tokens _ _ _ => true
  | J_accessToken_user _ _ => true
  | _ => false
  end.

(* ================================================================== *)
(** * The request authenticator ([src/middleware/auth.ts]) *)

Module middleware.

(** The [Authorization] header as the middleware reads it: missing, a
    string that does not start with ["Bearer "], or ["Bearer "] followed by
    the token string. *)
Inductive Authorization :=
| NoHeader
| NotBearer (raw : string)
| Bearer (token : JwtString).

(** What the middleware attaches to the request: [req.userId] and
    [req.user]. *)
Record Identity := mkIdentity {
  req_userId : string;
  req_user : UserView
}.

(** The middleware either calls [next()] after attaching the identity, or
    sends a response. *)
Inductive Outcome :=
| Next (attached : Identity)
| Sent (response : Response).

(** [findUnique({ where: { id, isVerified: true }, select })] *)
Definition findVerified (id : string) : M (option User.t) :=
  fun s =>
    (inr (find (fun u => String.eqb (User.id u) id && User.isVerified u) (users s)), s).

Definition attach (user : User.t) : Identity :=
  mkIdentity (User.id user) (AuthController.select_basic user).

Section Codec.
Variable hmac : string -> Claims -> string.

Definition authMiddleware (env : Env) (authHeader : Authorization) : M Outcome :=
  try_catch
    (match authHeader with
     | Bearer token =>
         try_catch
           (decoded_userId <- lift (AuthUtils.verifyAccessToken hmac env token) ;;
            user <- findVerified decoded_userId ;;
            match user with
            | None =>
                ret (Sent (res_status_json 401
                             (J_error "Invalid token or user not found")))
            | Some user => ret (Next (attach user))
            end)
           (fun tokenError =>
              ret (Sent (res_status_json 401 (J_error "Invalid or expired token"))))
     | _ => ret (Sent (res_status_json 401 (J_error "Access token required")))
     end)
    (fun error => ret (Sent (res_status_json 500 (J_error "Internal server error")))).

(** The optional variant always calls [next()]; the result is what it
    attached, if anything. *)
Definition optionalAuthMiddleware (env : Env) (authHeader : Authorization)
  : M (option Identity) :=
  try_catch
    (match authHeader with
     | Bearer token =>
         try_catch
           (decoded_userId <- lift (AuthUtils.verifyAccessToken hmac env token) ;;
            user <- findVerified decoded_userId ;;
            match user with
            | Some user => ret (Some (attach user))
            | None => ret None
            end)
           (fun tokenError => ret None)
     | _ => ret None
     end)
    (fun error => ret None).
End Codec.

End middleware.

(* ================================================================== *)
(** * The router of the authentication endpoints ([src/routes/auth.ts]) *)

Module routes.

Inductive Request :=
| POST_signup (body : Body)
| POST_login (body : Body)
| POST_forgot_password (body : Body)
| POST_reset_password (body : Body)
| GET_verify_email (token : string)
| POST_resend_verification (body : Body)
| POST_refresh_token (body : Body)
| POST_logout (body : Body)
| POST_google (body : Body)
| POST_logout_all (authHeader : middleware.Authorization).

Section Router.
Variable hmac : string -> Claims -> string.
Variable bcrypt_hash : string -> string -> string.
Variable bcrypt_compare : string -> string -> bool.
Variable isEmail : string -> bool.

Definition auth (env : Env) (req : Request) : M Response :=
  match req with
  | POST_signup body => AuthController.signup bcrypt_hash isEmail env body
  | POST_login body => AuthController.login hmac bcrypt_compare isEmail env body
  | POST_forgot_password body => AuthController.forgotPassword isEmail env body
  | POST_reset_password body => AuthController.resetPassword bcrypt_hash env body
  | GET_verify_email token => AuthController.verifyEmail env token
  | POST_resend_verification body => AuthController.resendVerification env body
  | POST_refresh_token body => AuthController.refreshToken hmac env body
  | POST_logout body => AuthController.logout env body
  | POST_google body => AuthController.googleAuth hmac env body
  | POST_logout_all authHeader =>
      outcome <- middleware.authMiddleware hmac env authHeader ;;
      match outcome with
      | middleware.Sent response => ret response
      | middleware.Next attached =>
          AuthController.logoutAll env (middleware.req_userId attached)
      end
  end.

(** The store after a sequence of requests, each served to its end before
    the next, each in its own surroundings. *)
Fixpoint serve (requests : list (Env * Request)) (s : Store) : Store :=
  match requests with
  | [] => s
  | (env, req) :: rest => serve rest (snd (auth env req s))
  end.
End Router.

End routes.

(* ================================================================== *)
(** * More views of the store *)

(** The unique index on [users.email]. *)
Definition emails_unique (s : Store) : bool := distinct (map User.email (users s)).

(** A user row and what became of it: same id and email, and still verified
    if it was. *)
Definition user_kept (u u' : User.t) : Prop :=
  User.id u' = User.id u
  /\ User.email u' = User.email u
  /\ (User.isVerified u = true -> User.isVerified u' = true).

(** Every user row of [s] is still there in [s'], in place; rows may have
    been added after them. *)
Definition users_kept (s s' : Store) : Prop :=
  exists f news,
    users s' = (map f (users s) ++ news)%list /\ forall u, user_kept u (f u).

(** No user row carries the verification token, resp. the reset token. *)
Definition verification_token_unused (token : string) (s : Store) : bool :=
  forallb (fun u => negb (AuthController.option_eqb (User.verificationToken u) token))
          (users s).

Definition reset_token_unused (token : string) (s : Store) : bool :=
  forallb (fun u => negb (AuthController.option_eqb (User.resetPasswordToken u) token))
          (users s).

(** The [where] of the lookups in [verifyEmail] and [resetPassword]: the
    row carries the token and its expiry is after the time of the request. *)
Definition verification_pending (env : Env) (token : string) (u : User.t) : bool :=
  AuthController.option_eqb (User.verificationToken u) token
  && AuthController.option_gt (User.verificationExpires u) (now env).

Definition reset_pending (env : Env) (token : string) (u : User.t) : bool :=
  AuthController.option_eqb (User.resetPasswordToken u) token
  && AuthController.option_gt (User.resetPasswordExpires u) (now env).

(** The user row [signup] creates. *)
Definition signed_up (bcrypt_hash : string -> string -> string) (env : Env)
           (email password name : string) : User.t :=
  User.mk (cuid env) email name
          (Some (AuthUtils.hashPassword bcrypt_hash env password))
          default_isVerified
          (Some (AuthUtils.generateVerificationToken env))
          (Some (now env + AuthController.day))
          None None None None (now env).

(** The refresh-token row [login] and [googleAuth] create for a user. *)
Definition session_row (hmac : string -> Claims -> string) (env : Env)
           (userId : string) : RefreshToken.t :=
  RefreshToken.mk (AuthUtils.generateRefreshToken hmac env userId) userId
                  (now env + 7 * AuthController.day).

(** The token pair they answer with. *)
Definition token_pair (hmac : string -> Claims -> string) (env : Env)
           (userId : string) : Tokens :=
  mkTokens (AuthUtils.generateAccessToken hmac env userId)
           (AuthUtils.generateRefreshToken hmac env userId).

(** The store with one more user, resp. one more refresh-token row. *)
Definition with_user (u : User.t) (s : Store) : Store :=
  mkStore (users s ++ [u]) (refreshTokens s).

Definition with_row (r : RefreshToken.t) (s : Store) : Store :=
  mkStore (users s) (refreshTokens s ++ [r]).

(** What one request can do to the [users] table: nothing, rewrite the
    rows of one id keeping id, email and verification, or add a row whose
    email no row had. *)
Inductive users_step (s : Store) : list User.t -> Prop :=
| users_same : users_step s (users s)
| users_updated id data :
    (forall u, user_kept u (data u)) ->
    users_step s (map (fun x => if String.eqb (User.id x) id then data x else x)
                      (users s))
| users_created new :
    by_email (User.email new) s = None ->
    users_step s (users s ++ [new]).

(** What one request can do to the refresh-token table: nothing, delete
    rows, or add the session row of a user. *)
Inductive rows_step (hmac : string -> Claims -> string) (s : Store)
  : list RefreshToken.t -> Prop :=
| rows_same : rows_step hmac s (refreshTokens s)
| rows_deleted keep : rows_step hmac s (filter keep (refreshTokens s))
| rows_session env userId :
    rows_step hmac s (refreshTokens s ++ [session_row hmac env userId]).


(** The store with no user and no refresh token. *)
Definition empty_store : Store := mkStore [] [].

(** The same surroundings at another time. *)
Definition at_time (t : Z) (env : Env) : Env :=
  mkEnv t (JWT_SECRET env) (JWT_ACCESS_EXPIRES env) (JWT_REFRESH_EXPIRES env)
        (randomBytes env) (salt env) (cuid env) (sendMail env)
        (verifyIdToken env) (userinfo env).

(* ================================================================== *)
(** * A concrete instance, to run the handlers *)

Module Demo.
Definition hmac (secret : string) (c : Claims) : string :=
  secret ++ "." ++ jwt_userId c ++ "." ++ jwt_type c.

(** A two-character salt after the seven-character prefix. *)
Definition bcrypt_hash (password salt : string) : string :=
  "$2a$12$" ++ salt ++ password.

Definition bcrypt_compare (password hashed : string) : bool :=
  String.eqb (substring 9 (String.length hashed - 9) hashed) password.

Definition isEmail (s : string) : bool :=
  existsb (Ascii.eqb "@"%char) (list_ascii_of_string s).

Definition google_none (token : string) : exn + option GoogleUser :=
  inl (Error "Wrong number of segments in token").

Definition userinfo_none (token : string) : exn + GoogleUser :=
  inl (Error "Invalid Credentials").

Definition env (mail : bool) : Env :=
  mkEnv 1700000000000 "s3cret" None None "a1b2c3" "ab" "user-9" mail
        google_none userinfo_none.

Definition alice : User.t :=
  User.mk "user-1" "alice@example.com" "Alice"
          (Some (bcrypt_hash "Valid123!" "xy")) true
          None None (Some "r3s3t") (Some 1700000001000) None None 1600000000000.

(** Signed up, not yet verified. *)
Definition bob : User.t :=
  User.mk "user-2" "bob@example.com" "Bob"
          (Some (bcrypt_hash "Passw0rd!" "pq")) false
          (Some "v3r1fy") (Some 1700000005000) None None None None 1600000000000.

Definition alice_row : RefreshToken.t :=
  RefreshToken.mk
    (AuthUtils.generateRefreshToken hmac (env true) "user-1")
    "user-1" (1700000000000 + 7 * AuthController.day).

Definition bob_row : RefreshToken.t :=
  RefreshToken.mk
    (AuthUtils.generateRefreshToken hmac (env true) "user-2")
    "user-2" (1700000000000 + 7 * AuthController.day).

Definition store : Store := mkStore [alice; bob] [alice_row; bob_row].


(** An ID token of a newcomer. *)
Definition google_carol : GoogleUser :=
  mkGoogleUser (Some "1172") (Some "carol@example.com") None (Some "Carol") None.


Definition env_idToken : Env :=
  mkEnv 1700000000000 "s3cret" None None "a1b2c3" "ab" "user-9" true
        (fun _ => inr (Some google_carol)) userinfo_none.

Definition login_body (email password : string) : Body :=
  mkBody (Some email) (Some password) None None None.

Definition signup_body (email password name : string) : Body :=
  mkBody (Some email) (Some password) (Some name) None None.

Definition email_body (email : string) : Body :=
  mkBody (Some email) None None None None.

Definition reset_body (token password : string) : Body :=
  mkBody None (Some password) None (Some token) None.

Definition refresh_body (token : JwtString) : Body :=
  mkBody None None None None (Some token).

Definition google_body (token : string) : Body :=
  mkBody None None None (Some token) None.

(** The store after Alice reset her password. *)
Definition after_reset : Store :=
  snd (AuthController.resetPassword bcrypt_hash (env true)
         (reset_body "r3s3t" "NewPass1!") store).
End Demo.

(* ================================================================== *)
(** * The password policy *)

Lemma lookahead_dot_star_contains cls s :
  lookahead_dot_star cls s = true -> PasswordPolicy.contains cls s = true.
Proof.
  unfold PasswordPolicy.contains.
  induction s as [|c rest IH]; simpl; intro H; [discriminate|].
  apply orb_true_iff in H. destruct H as [H|H].
  - now rewrite H.
  - apply andb_true_iff in H. destruct H as [_ H].
    rewrite (IH H). apply orb_true_r.
Qed.

(** An unanchored lookahead [(?=.*[cls])] matches exactly the strings with
    a character of the class. *)
Lemma regex_test_contains cls s :
  regex_test cls s = PasswordPolicy.contains cls s.
Proof.
  induction s as [|c rest IH]; [reflexivity|].
  change (regex_test cls (String c rest))
    with (lookahead_dot_star cls (String c rest) || regex_test cls rest).
  change (PasswordPolicy.contains cls (String c rest))
    with (cls c || PasswordPolicy.contains cls rest).
  rewrite IH. simpl.
  destruct (cls c); [reflexivity|]. simpl.
  destruct (lookahead_dot_star cls rest) eqn:E.
  - rewrite (lookahead_dot_star_contains _ _ E).
    now destruct (line_terminator c).
  - now rewrite andb_false_r.
Qed.

Lemma isPasswordStrong_check p :
  AuthUtils.isPasswordStrong p = PasswordPolicy.check p.
Proof.
  unfold AuthUtils.isPasswordStrong, PasswordPolicy.check, PasswordPolicy.rules.
  rewrite !regex_test_contains. cbn [find PasswordPolicy.passes PasswordPolicy.reason].
  destruct (Nat.ltb_spec (String.length p) 8) as [L|L].
  - replace (8 <=? String.length p)%nat with false
      by (symmetry; apply Nat.leb_gt; lia).
    reflexivity.
  - replace (8 <=? String.length p)%nat with true
      by (symmetry; apply Nat.leb_le; lia).
    cbn [negb].
    destruct (PasswordPolicy.contains class_a_z p); [|reflexivity].
    destruct (PasswordPolicy.contains class_A_Z p); [|reflexivity].
    destruct (PasswordPolicy.contains class_digit p); [|reflexivity].
    destruct (PasswordPolicy.contains class_special p); reflexivity.
Qed.

Lemma check_valid_iff p :
  AuthUtils.valid (PasswordPolicy.check p) = true <->
  Forall (fun r => PasswordPolicy.passes r p = true) PasswordPolicy.rules.
Proof.
  unfold PasswordPolicy.check.
  destruct (find _ PasswordPolicy.rules) as [r|] eqn:F; simpl.
  - split; [discriminate|]. intro A.
    apply find_some in F. destruct F as [I N].
    rewrite Forall_forall in A. rewrite (A r I) in N. discriminate.
  - split; [|reflexivity]. intros _. apply Forall_forall. intros r I.
    pose proof (find_none _ _ F r I) as N. simpl in N.
    now destruct (PasswordPolicy.passes r p).
Qed.

(** C8. For every password, [isPasswordStrong] is the first-failure-wins
    evaluation of the five rules (length at least 8, a lowercase letter, an
    uppercase letter, a digit, a character of [@$!%*?&]) in that order: it is
    valid exactly when all five pass and otherwise reports the first failing
    rule. It rejects "short1!", "alllower1!", "ALLUPPER1!", "NoDigits!!" and
    "NoSpecial1", each for the named reason, and accepts "Valid123!". *)
Theorem isPasswordStrong_policy :
  (forall p, AuthUtils.isPasswordStrong p = PasswordPolicy.check p)
  /\ List.length PasswordPolicy.rules = 5%nat
  /\ (forall p, AuthUtils.valid (AuthUtils.isPasswordStrong p) = true <->
                Forall (fun r => PasswordPolicy.passes r p = true) PasswordPolicy.rules)
  /\ (forall p, AuthUtils.valid (AuthUtils.isPasswordStrong p) = false ->
        exists r, find (fun r => negb (PasswordPolicy.passes r p)) PasswordPolicy.rules = Some r
                  /\ AuthUtils.message (AuthUtils.isPasswordStrong p)
                     = Some (PasswordPolicy.reason r))
  /\ AuthUtils.isPasswordStrong "short1!"
     = AuthUtils.mkCheck false (Some "Password must be at least 8 characters long")
  /\ AuthUtils.isPasswordStrong "alllower1!"
     = AuthUtils.mkCheck false (Some "Password must contain at least one uppercase letter")
  /\ AuthUtils.isPasswordStrong "ALLUPPER1!"
     = AuthUtils.mkCheck false (Some "Password must contain at least one lowercase letter")
  /\ AuthUtils.isPasswordStrong "NoDigits!!"
     = AuthUtils.mkCheck false (Some "Password must contain at least one number")
  /\ AuthUtils.isPasswordStrong "NoSpecial1"
     = AuthUtils.mkCheck false (Some "Password must contain at least one special character")
  /\ AuthUtils.isPasswordStrong "Valid123!" = AuthUtils.mkCheck true None.
Proof.
  split; [exact isPasswordStrong_check|].
  split; [reflexivity|].
  split; [intro p; rewrite isPasswordStrong_check; apply check_valid_iff|].
  split.
  - intros p. rewrite isPasswordStrong_check. unfold PasswordPolicy.check.
    destruct (find _ PasswordPolicy.rules) as [r|]; simpl; [|discriminate].
    intros _. now exists r.
  - repeat split; reflexivity.
Qed.

(* ================================================================== *)
(** * Basic facts *)

Lemma Claims_eqb_eq a b : Claims_eqb a b = true -> a = b.
Proof.
  destruct a, b. unfold Claims_eqb. simpl. intro H.
  repeat (apply andb_true_iff in H; destruct H as [H ?]).
  apply String.eqb_eq in H. f_equal;
    first [assumption | now apply String.eqb_eq | now apply Z.eqb_eq].
Qed.

Lemma JwtString_eqb_eq a b : JwtString_eqb a b = true -> a = b.
Proof.
  destruct a as [x|c sg], b as [y|c' sg']; simpl; intro H; try discriminate.
  - f_equal. now apply String.eqb_eq.
  - apply andb_true_iff in H. destruct H as [H1 H2].
    f_equal; [now apply Claims_eqb_eq | now apply String.eqb_eq].
Qed.

Lemma JwtString_eqb_refl a : JwtString_eqb a a = true.
Proof.
  destruct a as [x|c sg]; simpl; [apply String.eqb_refl|].
  unfold Claims_eqb. now rewrite !String.eqb_refl, !Z.eqb_refl.
Qed.

Lemma truthy_Some v s : truthy v = Some s -> v = Some s /\ s <> "".
Proof.
  unfold truthy. destruct v as [x|]; simpl; [|discriminate].
  destruct (String.eqb_spec x ""); [discriminate|].
  intro H. injection H as ->. now split.
Qed.

Lemma truthy_intro s : s <> "" -> truthy (Some s) = Some s.
Proof.
  intro N. unfold truthy. simpl. now destruct (String.eqb_spec s "").
Qed.

Lemma truthy_token_Some v t : truthy_token v = Some t -> v = Some t.
Proof.
  unfold truthy_token. now destruct (falsy_token v).
Qed.

Lemma find_map_preserving {A} (p : A -> bool) (f : A -> A) l :
  (forall x, p (f x) = p x) -> find p (map f l) = option_map f (find p l).
Proof.
  intro P. induction l as [|a l IH]; [reflexivity|].
  simpl. rewrite P. now destruct (p a).
Qed.


(* ================================================================== *)
(** * The token codec *)

Section TokenCodec.
#[local] Set Default Proof Using "Type".
Variable hmac : string -> Claims -> string.

Lemma verify_kind_spec kind env t :
  AuthUtils.verify_kind hmac kind env t =
  match t with
  | Malformed _ => inl (Error "jwt malformed")
  | Compact c sg =>
      if negb (String.eqb sg (hmac (JWT_SECRET env) c)) then inl (Error "invalid signature")
      else if negb (now env / 1000 <? jwt_exp c) then inl (Error "jwt expired")
      else if negb (String.eqb (jwt_type c) kind) then inl (Error "Invalid token type")
      else inr (jwt_userId c)
  end.
Proof.
  unfold AuthUtils.verify_kind, jwt.verify. destruct t as [raw|c sg]; [reflexivity|].
  destruct (negb (String.eqb sg _)); [reflexivity|].
  rewrite Z.geb_leb, Z.leb_antisym.
  now destruct (negb (now env / 1000 <? jwt_exp c)).
Qed.

Lemma verifyRefreshToken_inr env t uid :
  AuthUtils.verifyRefreshToken hmac env t = inr uid ->
  exists c sg, t = Compact c sg /\ jwt_userId c = uid /\ jwt_type c = "refresh".
Proof.
  unfold AuthUtils.verifyRefreshToken. rewrite verify_kind_spec.
  destruct t as [raw|c sg]; [discriminate|].
  destruct (negb (String.eqb sg _)); [discriminate|].
  destruct (negb (now env / 1000 <? jwt_exp c)); [discriminate|].
  destruct (String.eqb_spec (jwt_type c) "refresh") as [T|T]; simpl; [|discriminate].
  intro H. injection H as <-. now exists c, sg.
Qed.

(** C2. A token minted by [generateAccessToken] is rejected by
    [verifyRefreshToken], and one minted by [generateRefreshToken] by
    [verifyAccessToken], whenever and wherever it is checked. Each verifier
    succeeds exactly when the signature is the one the secret gives, the
    expiry has not elapsed and the [type] claim is the expected kind, and
    then returns the [userId] claim; so a verified token of ours returns
    the user it was issued for, and a fresh one verifies as long as its
    lifetime is positive. *)
Theorem token_kind_is_checked :
  (forall env env' userId,
      AuthUtils.verifyRefreshToken hmac env' (AuthUtils.generateAccessToken hmac env userId)
      = inl (Error "Invalid or expired refresh token"))
  /\ (forall env env' userId,
      AuthUtils.verifyAccessToken hmac env' (AuthUtils.generateRefreshToken hmac env userId)
      = inl (Error "Invalid or expired token"))
  /\ (forall env t,
      AuthUtils.verifyAccessToken hmac env t =
      match t with
      | Compact c sg =>
          if String.eqb sg (hmac (JWT_SECRET env) c)
             && (now env / 1000 <? jwt_exp c)
             && String.eqb (jwt_type c) "access"
          then inr (jwt_userId c)
          else inl (Error "Invalid or expired token")
      | Malformed _ => inl (Error "Invalid or expired token")
      end)
  /\ (forall env t,
      AuthUtils.verifyRefreshToken hmac env t =
      match t with
      | Compact c sg =>
          if String.eqb sg (hmac (JWT_SECRET env) c)
             && (now env / 1000 <? jwt_exp c)
             && String.eqb (jwt_type c) "refresh"
          then inr (jwt_userId c)
          else inl (Error "Invalid or expired refresh token")
      | Malformed _ => inl (Error "Invalid or expired refresh token")
      end)
  /\ (forall env env' userId,
      AuthUtils.verifyAccessToken hmac env' (AuthUtils.generateAccessToken hmac env userId)
      = inr userId
      \/ AuthUtils.verifyAccessToken hmac env' (AuthUtils.generateAccessToken hmac env userId)
         = inl (Error "Invalid or expired token"))
  /\ (forall env env' userId,
      AuthUtils.verifyRefreshToken hmac env' (AuthUtils.generateRefreshToken hmac env userId)
      = inr userId
      \/ AuthUtils.verifyRefreshToken hmac env' (AuthUtils.generateRefreshToken hmac env userId)
         = inl (Error "Invalid or expired refresh token"))
  /\ (forall env userId,
      AuthUtils.verifyAccessToken hmac env (AuthUtils.generateAccessToken hmac env userId)
      = if 0 <? AuthUtils.access_expires env
        then inr userId else inl (Error "Invalid or expired token"))
  /\ (forall env userId,
      AuthUtils.verifyRefreshToken hmac env (AuthUtils.generateRefreshToken hmac env userId)
      = if 0 <? AuthUtils.refresh_expires env
        then inr userId else inl (Error "Invalid or expired refresh token")).
Proof.
  assert (A : forall env t,
             AuthUtils.verifyAccessToken hmac env t =
             match t with
             | Compact c sg =>
                 if String.eqb sg (hmac (JWT_SECRET env) c)
                    && (now env / 1000 <? jwt_exp c)
                    && String.eqb (jwt_type c) "access"
                 then inr (jwt_userId c)
                 else inl (Error "Invalid or expired token")
             | Malformed _ => inl (Error "Invalid or expired token")
             end).
  { intros env t. unfold AuthUtils.verifyAccessToken. rewrite verify_kind_spec.
    destruct t as [raw|c sg]; [reflexivity|].
    destruct (String.eqb sg _); [|reflexivity].
    destruct (now env / 1000 <? jwt_exp c); [|reflexivity].
    now destruct (String.eqb (jwt_type c) "access"). }
  assert (R : forall env t,
             AuthUtils.verifyRefreshToken hmac env t =
             match t with
             | Compact c sg =>
                 if String.eqb sg (hmac (JWT_SECRET env) c)
                    && (now env / 1000 <? jwt_exp c)
                    && String.eqb (jwt_type c) "refresh"
                 then inr (jwt_userId c)
                 else inl (Error "Invalid or expired refresh token")
             | Malformed _ => inl (Error "Invalid or expired refresh token")
             end).
  { intros env t. unfold AuthUtils.verifyRefreshToken. rewrite verify_kind_spec.
    destruct t as [raw|c sg]; [reflexivity|].
    destruct (String.eqb sg _); [|reflexivity].
    destruct (now env / 1000 <? jwt_exp c); [|reflexivity].
    now destruct (String.eqb (jwt_type c) "refresh"). }
  repeat split.
  - intros. rewrite R. unfold AuthUtils.generateAccessToken, jwt.sign. cbn.
    now rewrite !andb_false_r.
  - intros. rewrite A. unfold AuthUtils.generateRefreshToken, jwt.sign. cbn.
    now rewrite !andb_false_r.
  - exact A.
  - exact R.
  - intros env env' userId. rewrite A.
    unfold AuthUtils.generateAccessToken, jwt.sign. cbn [jwt_userId].
    match goal with |- context [if ?b then _ else _] => destruct b end; auto.
  - intros env env' userId. rewrite R.
    unfold AuthUtils.generateRefreshToken, jwt.sign. cbn [jwt_userId].
    match goal with |- context [if ?b then _ else _] => destruct b end; auto.
  - intros env userId. rewrite A.
    unfold AuthUtils.generateAccessToken, jwt.sign.
    cbn [jwt_exp jwt_type jwt_userId]. rewrite !String.eqb_refl, andb_true_r.
    cbn [andb].
    destruct (Z.ltb_spec 0 (AuthUtils.access_expires env));
      destruct (Z.ltb_spec (now env / 1000) (now env / 1000 + AuthUtils.access_expires env));
      try reflexivity; lia.
  - intros env userId. rewrite R.
    unfold AuthUtils.generateRefreshToken, jwt.sign.
    cbn [jwt_exp jwt_type jwt_userId]. rewrite !String.eqb_refl, andb_true_r.
    cbn [andb].
    destruct (Z.ltb_spec 0 (AuthUtils.refresh_expires env));
      destruct (Z.ltb_spec (now env / 1000) (now env / 1000 + AuthUtils.refresh_expires env));
      try reflexivity; lia.
Qed.
End TokenCodec.

(* ================================================================== *)
(** * The controller *)

(** Unfolds the plumbing of a handler. *)
(** ** The unique indexes and the signing guard *)

Lemma same_googleId_refl g : prisma.user.same_googleId g g = true.
Proof. destruct g as [x|]; [apply String.eqb_refl|reflexivity]. Qed.

Lemma email_taken_find email rows :
  find (fun u => String.eqb (User.email u) email) rows = None ->
  prisma.user.email_taken email rows = false.
Proof.
  intro F. unfold prisma.user.email_taken.
  induction rows as [|a l IH]; [reflexivity|].
  cbn [find] in F. cbn [existsb].
  destruct (String.eqb (User.email a) email); [discriminate|]. now apply IH.
Qed.

Lemma generate_check_ok env :
  JWT_SECRET env <> "" -> AuthUtils.generate_check env = inr tt.
Proof.
  intro N. unfold AuthUtils.generate_check, jwt.sign_throws.
  destruct (String.eqb_spec (JWT_SECRET env) ""); [contradiction|reflexivity].
Qed.

Lemma googleId_taken_none g rows :
  (forall x sb, In x rows -> g = Some sb -> User.googleId x = Some sb -> False) ->
  prisma.user.googleId_taken g rows = false.
Proof.
  destruct g as [sb|]; [|reflexivity]. cbn [prisma.user.googleId_taken].
  induction rows as [|a l IH]; intro N; [reflexivity|].
  cbn [existsb]. rewrite IH.
  - destruct (User.googleId a) as [x|] eqn:A; [|reflexivity].
    destruct (String.eqb_spec x sb) as [->|]; [|reflexivity].
    exfalso. exact (N a sb (or_introl eq_refl) eq_refl A).
  - intros x sb0 I. apply N. now right.
Qed.

Lemma googleId_taken_In sb rows x :
  prisma.user.googleId_taken (Some sb) rows = false ->
  In x rows -> User.googleId x <> Some sb.
Proof.
  cbn [prisma.user.googleId_taken]. intros N I A.
  assert (E : existsb (fun u => match User.googleId u with
                                | Some y => String.eqb y sb
                                | None => false
                                end) rows = true).
  { apply existsb_exists. exists x. split; [exact I|].
    rewrite A. apply String.eqb_refl. }
  rewrite E in N. discriminate.
Qed.

(** An update that leaves the googleId of the row as it is cannot collide. *)
Ltac own_googleId := rewrite same_googleId_refl; cbn [negb andb].

Ltac run :=
  unfold try_catch, bind, lift, ret, throw,
    prisma.user.findUnique, prisma.user.findFirst, prisma.user.create,
    prisma.user.update, prisma.refreshToken.create, prisma.refreshToken.findFirst,
    prisma.refreshToken.deleteMany,
    emailService.sendVerificationEmail, emailService.sendPasswordResetEmail,
    emailService.sendPasswordChangeNotification, emailService.send,
    AuthController.on_error, AuthController.internal_error,
    res_status_json, res_json, by_email;
  repeat match goal with
         | H : context [by_email _ _] |- _ => unfold by_email in H
         end.

Section Controller.
#[local] Set Default Proof Using "Type".
Variable hmac : string -> Claims -> string.
Variable bcrypt_hash : string -> string -> string.
Variable bcrypt_compare : string -> string -> bool.
Variable isEmail : string -> bool.

Local Abbreviation signup := (AuthController.signup bcrypt_hash isEmail).
Local Abbreviation login := (AuthController.login hmac bcrypt_compare isEmail).
Local Abbreviation resendVerification := AuthController.resendVerification.
Local Abbreviation forgotPassword := (AuthController.forgotPassword isEmail).
Local Abbreviation resetPassword := (AuthController.resetPassword bcrypt_hash).
Local Abbreviation refreshToken := (AuthController.refreshToken hmac).
Local Abbreviation googleAuth := (AuthController.googleAuth hmac).

(** ** Refresh *)

(** C3. A refresh-token request never changes the store, whether it
    succeeds or fails: it answers 200 with a newly minted access token and
    the snapshot of the owner of a stored, unexpired row that carries the
    presented token, or 401 with an error; the rows are the same after. *)
Theorem refreshToken_leaves_rows env body s :
  exists resp,
    refreshToken env body s = (inr resp, s)
    /\ ((status resp = 200
         /\ exists t uid row,
             b_refreshToken body = Some t
             /\ AuthUtils.verifyRefreshToken hmac env t = inr uid
             /\ In row (refreshTokens s)
             /\ RefreshToken.token row = t
             /\ RefreshToken.userId row = uid
             /\ RefreshToken.expiresAt row > now env
             /\ json resp = J_accessToken_user
                              (AuthUtils.generateAccessToken hmac env uid)
                              (AuthController.include_user s row))
        \/ (status resp = 401 /\ exists m, json resp = J_error m)).
Proof.
  unfold AuthController.refreshToken. run.
  destruct (truthy_token (b_refreshToken body)) as [t|] eqn:T.
  2:{ eexists. split; [reflexivity|]. right. simpl. eauto. }
  apply truthy_token_Some in T.
  destruct (AuthUtils.verifyRefreshToken hmac env t) as [e|uid] eqn:V.
  { eexists. split; [reflexivity|]. right. simpl. eauto. }
  destruct (find _ (refreshTokens s)) as [row|] eqn:F.
  2:{ eexists. split; [reflexivity|]. right. simpl. eauto. }
  destruct (AuthUtils.generate_check env) as [e|[]].
  { eexists. split; [reflexivity|]. right. simpl. eauto. }
  eexists. split; [reflexivity|]. left. split; [reflexivity|].
  apply find_some in F. destruct F as [I P].
  apply andb_true_iff in P. destruct P as [P P3].
  apply andb_true_iff in P. destruct P as [P1 P2].
  exists t, uid, row. repeat split; auto.
  - now apply JwtString_eqb_eq.
  - now apply String.eqb_eq.
  - apply Z.gtb_lt in P3. lia.
Qed.

(** ** Login *)

Lemma by_email_with_isVerified email v s :
  by_email email (with_isVerified email v s)
  = option_map (set_isVerified v) (by_email email s).
Proof.
  unfold by_email, with_isVerified. cbn [users].
  induction (users s) as [|a l IH]; [reflexivity|].
  cbn [map find].
  destruct (String.eqb (User.email a) email) eqn:E; cbn [User.email set_isVerified];
    rewrite E.
  - reflexivity.
  - exact IH.
Qed.

(** C4. A login that passes validation, finds a user with a password hash
    and presents the matching password, while the user is not verified, is
    answered 401 with the code EMAIL_NOT_VERIFIED; the response carries no
    token and the store (so the refresh-token table) is unchanged. *)
Theorem login_unverified_rejected env body s email password u hash :
  z.loginSchema isEmail body = inr (email, password) ->
  by_email email s = Some u ->
  User.password u = Some hash -> hash <> "" ->
  bcrypt_compare password hash = true ->
  User.isVerified u = false ->
  exists resp,
    login env body s = (inr resp, s)
    /\ status resp = 401
    /\ json resp = J_error_code "Please verify your email address before logging in"
                                "EMAIL_NOT_VERIFIED"
    /\ carries_tokens resp = false.
Proof.
  intros P F H N C V.
  unfold AuthController.login, AuthUtils.comparePassword. run.
  rewrite P, F, H, (truthy_intro _ N), C, V. cbn.
  eexists. split; [reflexivity|]. repeat split.
Qed.

Lemma login_wrong_password env body s email password u hash :
  z.loginSchema isEmail body = inr (email, password) ->
  by_email email s = Some u ->
  User.password u = Some hash -> hash <> "" ->
  bcrypt_compare password hash = false ->
  login env body s
  = (inr (res_status_json 401 (J_error "Invalid email or password")), s).
Proof.
  intros P F H N C.
  unfold AuthController.login, AuthUtils.comparePassword. run.
  now rewrite P, F, H, (truthy_intro _ N), C.
Qed.

(** The code EMAIL_NOT_VERIFIED is sent only after the password matched. *)
Lemma email_not_verified_needs_password env body s resp s' m :
  login env body s = (inr resp, s') ->
  json resp = J_error_code m "EMAIL_NOT_VERIFIED" ->
  exists email password u hash,
    z.loginSchema isEmail body = inr (email, password)
    /\ by_email email s = Some u
    /\ User.password u = Some hash
    /\ bcrypt_compare password hash = true.
Proof.
  unfold AuthController.login, AuthUtils.comparePassword. run.
  destruct (z.loginSchema isEmail body) as [e|[email password]] eqn:P; cbn.
  { destruct e; intros R J; injection R as <- <-; discriminate. }
  destruct (find _ (users s)) as [u|] eqn:F.
  2:{ intros R J; injection R as <- <-; discriminate. }
  destruct (truthy (User.password u)) as [hash|] eqn:T.
  2:{ intros R J; injection R as <- <-; discriminate. }
  apply truthy_Some in T. destruct T as [T _].
  destruct (bcrypt_compare password hash) eqn:C; cbn.
  2:{ intros R J; injection R as <- <-; discriminate. }
  intros _ _. now exists email, password, u, hash.
Qed.

(** C10. A login that passes validation and finds a user with a password
    hash, but presents a password that does not match it, is answered with
    the generic 401 "Invalid email or password" and leaves the store as it
    is, whatever the account's [isVerified] flag: the answer is the same
    with the flag set either way. The code EMAIL_NOT_VERIFIED is only ever
    sent to a caller whose password matched. *)
Theorem login_wrong_password_hides_verification env body s email password u hash :
  z.loginSchema isEmail body = inr (email, password) ->
  by_email email s = Some u ->
  User.password u = Some hash -> hash <> "" ->
  bcrypt_compare password hash = false ->
  login env body s
  = (inr (res_status_json 401 (J_error "Invalid email or password")), s)
  /\ (forall v,
        login env body (with_isVerified email v s)
        = (inr (res_status_json 401 (J_error "Invalid email or password")),
           with_isVerified email v s))
  /\ (forall env' body' s1 resp s2 m,
        login env' body' s1 = (inr resp, s2) ->
        json resp = J_error_code m "EMAIL_NOT_VERIFIED" ->
        exists email' password' u' hash',
          z.loginSchema isEmail body' = inr (email', password')
          /\ by_email email' s1 = Some u'
          /\ User.password u' = Some hash'
          /\ bcrypt_compare password' hash' = true).
Proof.
  intros P F H N C. split; [|split].
  - now apply (login_wrong_password env body s email password u hash).
  - intro v.
    apply (login_wrong_password env body _ email password (set_isVerified v u) hash);
      auto.
    rewrite by_email_with_isVerified, F. reflexivity.
  - intros. eapply email_not_verified_needs_password; eauto.
Qed.

(** ** Signup *)

Lemma isPasswordStrong_message p :
  AuthUtils.valid (AuthUtils.isPasswordStrong p) = false ->
  exists m, AuthUtils.message (AuthUtils.isPasswordStrong p) = Some m.
Proof.
  rewrite isPasswordStrong_check. unfold PasswordPolicy.check.
  destruct (find _ PasswordPolicy.rules) as [r|]; simpl; [eauto|discriminate].
Qed.

(** C5, as the code has it. The password policy is checked before the
    lookup of the email. A signup that passes shape validation and whose
    email is registered leaves the store as it is and is answered 409 when
    the password passes the policy, and 400 with the policy's message when
    it does not. *)
Theorem signup_registered_email env body s email password name u :
  z.signupSchema isEmail body = inr (email, password, name) ->
  by_email email s = Some u ->
  exists resp,
    signup env body s = (inr resp, s)
    /\ (AuthUtils.valid (AuthUtils.isPasswordStrong password) = true ->
        resp = res_status_json 409 (J_error "User already exists with this email"))
    /\ (AuthUtils.valid (AuthUtils.isPasswordStrong password) = false ->
        exists m, AuthUtils.message (AuthUtils.isPasswordStrong password) = Some m
                  /\ resp = res_status_json 400 (J_error m)).
Proof.
  intros P F. unfold AuthController.signup. run. rewrite P. cbn.
  destruct (AuthUtils.valid (AuthUtils.isPasswordStrong password)) eqn:V; cbn.
  - rewrite F. eexists. split; [reflexivity|]. split; [reflexivity|discriminate].
  - eexists. split; [reflexivity|]. split; [discriminate|]. intros _.
    destruct (isPasswordStrong_message _ V) as [m Hm]. exists m. now rewrite Hm.
Qed.

(** A failed verification email does not change what [signup] answers. *)
Lemma signup_swallows_email_failure env body s ok ok' :
  signup (with_sendMail ok env) body s = signup (with_sendMail ok' env) body s.
Proof.
  unfold AuthController.signup, AuthUtils.hashPassword,
    AuthUtils.generateVerificationToken. run.
  destruct (z.signupSchema isEmail body) as [e|[[email password] name]]; cbn;
    [reflexivity|].
  destruct (negb (AuthUtils.valid (AuthUtils.isPasswordStrong password)));
    [reflexivity|].
  destruct (find _ (users s)); [reflexivity|].
  now destruct ok, ok'.
Qed.

(** ** Resend verification and forgot password *)

Lemma find_some_find_id p (l : list User.t) u :
  find p l = Some u ->
  exists x, find (fun x => String.eqb (User.id x) (User.id u)) l = Some x.
Proof.
  intro F. apply find_some in F. destruct F as [I _].
  destruct (find _ l) as [x|] eqn:G; [eauto|].
  pose proof (find_none _ _ G u I) as N. simpl in N.
  now rewrite String.eqb_refl in N.
Qed.

Lemma by_email_find_id email s u :
  by_email email s = Some u ->
  exists x, find (fun x => String.eqb (User.id x) (User.id u)) (users s) = Some x.
Proof. apply find_some_find_id. Qed.

Lemma resendVerification_run env body s email u :
  b_email body = Some email ->
  by_email email s = Some u ->
  User.isVerified u = false ->
  resendVerification env body s
  = (inr (if sendMail env
          then res_json (J_message "Verification email sent successfully")
          else res_status_json 500 (J_error "Internal server error")),
     updated (User.id u)
       (AuthController.set_verification (AuthUtils.generateVerificationToken env)
                                        (now env + AuthController.day)) s).
Proof.
  intros B F V. destruct (by_email_find_id _ _ _ F) as [x X].
  unfold AuthController.resendVerification. run.
  rewrite B, F, V, X. own_googleId. now destruct (sendMail env).
Qed.

Lemma forgotPassword_run env body s email u :
  z.forgotPasswordSchema isEmail body = inr email ->
  by_email email s = Some u ->
  forgotPassword env body s
  = (inr (if sendMail env
          then res_json (J_message AuthController.forgot_message)
          else res_status_json 500 (J_error "Internal server error")),
     updated (User.id u)
       (AuthController.set_reset (AuthUtils.generateResetToken env)
                                 (now env + AuthController.hour)) s).
Proof.
  intros P F. destruct (by_email_find_id _ _ _ F) as [x X].
  unfold AuthController.forgotPassword. run.
  rewrite P. cbn. rewrite F, X. own_googleId. now destruct (sendMail env).
Qed.

Lemma forgotPassword_unknown env body s email :
  z.forgotPasswordSchema isEmail body = inr email ->
  by_email email s = None ->
  forgotPassword env body s
  = (inr (res_json (J_message AuthController.forgot_message)), s).
Proof.
  intros P F. unfold AuthController.forgotPassword. run.
  rewrite P. cbn. now rewrite F.
Qed.

(** C6, where the code departs from it. When the mail transporter rejects,
    [resendVerification] and [forgotPassword] have already written the new
    token to the user row and then answer 500 "Internal server error", while
    with a working transporter the same requests are answered 200: the
    failure of the send reaches the caller. *)
Theorem email_failure_reaches_caller env body s email u :
  sendMail env = false ->
  b_email body = Some email ->
  isEmail email = true ->
  by_email email s = Some u ->
  User.isVerified u = false ->
  resendVerification env body s
  = (inr (res_status_json 500 (J_error "Internal server error")),
     updated (User.id u)
       (AuthController.set_verification (AuthUtils.generateVerificationToken env)
                                        (now env + AuthController.day)) s)
  /\ resendVerification (with_sendMail true env) body s
     = (inr (res_json (J_message "Verification email sent successfully")),
        updated (User.id u)
       (AuthController.set_verification (AuthUtils.generateVerificationToken env)
                                        (now env + AuthController.day)) s)
  /\ forgotPassword env body s
     = (inr (res_status_json 500 (J_error "Internal server error")),
        updated (User.id u)
       (AuthController.set_reset (AuthUtils.generateResetToken env)
                                 (now env + AuthController.hour)) s)
  /\ forgotPassword (with_sendMail true env) body s
     = (inr (res_json (J_message AuthController.forgot_message)),
        updated (User.id u)
       (AuthController.set_reset (AuthUtils.generateResetToken env)
                                 (now env + AuthController.hour)) s).
Proof.
  intros M B E F V.
  assert (P : z.forgotPasswordSchema isEmail body = inr email).
  { unfold z.forgotPasswordSchema, z.string_email. rewrite B, E. reflexivity. }
  repeat split.
  - rewrite (resendVerification_run env body s email u B F V), M. reflexivity.
  - rewrite (resendVerification_run _ body s email u B F V). reflexivity.
  - rewrite (forgotPassword_run env body s email u P F), M. reflexivity.
  - rewrite (forgotPassword_run _ body s email u P F). reflexivity.
Qed.

(** With a working mail transporter the answer of [forgotPassword] to a
    well-formed email is the same whether or not the account exists. *)
Lemma forgotPassword_same_answer_when_mail_works env body email s1 s2 :
  sendMail env = true ->
  z.forgotPasswordSchema isEmail body = inr email ->
  fst (forgotPassword env body s1) = fst (forgotPassword env body s2)
  /\ fst (forgotPassword env body s1)
     = inr (res_json (J_message AuthController.forgot_message)).
Proof.
  intros M P.
  assert (A : forall s, fst (forgotPassword env body s)
                        = inr (res_json (J_message AuthController.forgot_message))).
  { intro s. destruct (by_email email s) as [u|] eqn:F.
    - rewrite (forgotPassword_run env body s email u P F), M. reflexivity.
    - rewrite (forgotPassword_unknown env body s email P F). reflexivity. }
  now rewrite !A.
Qed.

(** C7, where the code departs from it. When the mail transporter rejects,
    a forgot-password request for a well-formed email is answered 200 with
    the generic message if no account has that email and 500 "Internal
    server error" if one has: the two answers differ. *)
Theorem forgotPassword_reveals_account_on_mail_failure env body email s u s0 :
  sendMail env = false ->
  z.forgotPasswordSchema isEmail body = inr email ->
  by_email email s = Some u ->
  by_email email s0 = None ->
  fst (forgotPassword env body s0)
  = inr (res_json (J_message AuthController.forgot_message))
  /\ fst (forgotPassword env body s)
     = inr (res_status_json 500 (J_error "Internal server error"))
  /\ fst (forgotPassword env body s) <> fst (forgotPassword env body s0).
Proof.
  intros M P F F0.
  rewrite (forgotPassword_run env body s email u P F), M.
  rewrite (forgotPassword_unknown env body s0 email P F0).
  repeat split. discriminate.
Qed.

(** ** Reset password *)

Lemma rows_of_after_delete userId s :
  rows_of userId (without_rows userId s) = [].
Proof.
  unfold rows_of, without_rows. cbn [refreshTokens].
  induction (refreshTokens s) as [|r rs IH]; [reflexivity|].
  cbn [filter].
  destruct (String.eqb (RefreshToken.userId r) userId) eqn:E; cbn [negb]; [exact IH|].
  cbn [filter]. now rewrite E.
Qed.

(** A refresh token whose [userId] claim names a user without rows is
    refused. *)
Lemma refreshToken_no_rows env body s c sg :
  b_refreshToken body = Some (Compact c sg) ->
  rows_of (jwt_userId c) s = [] ->
  refreshToken env body s
  = (inr (res_status_json 401 (J_error "Invalid or expired refresh token")), s).
Proof.
  intros B N. unfold AuthController.refreshToken. run. rewrite B.
  cbn [truthy_token falsy_token].
  destruct (AuthUtils.verifyRefreshToken hmac env (Compact c sg)) as [e|uid] eqn:V;
    [reflexivity|].
  apply verifyRefreshToken_inr in V. destruct V as (c' & sg' & E & U & _).
  injection E as <- <-.
  destruct (find _ (refreshTokens s)) as [r|] eqn:F; [|reflexivity].
  apply find_some in F. destruct F as [I P].
  apply andb_true_iff in P. destruct P as [P _].
  apply andb_true_iff in P. destruct P as [_ P].
  assert (X : In r (rows_of (jwt_userId c) s)).
  { unfold rows_of. apply filter_In. split; [exact I|]. now rewrite U. }
  rewrite N in X. contradiction.
Qed.

Lemma by_id_updated id data s x :
  (forall y, User.id (data y) = User.id y) ->
  In x (by_id id (updated id data s)) ->
  exists y, In y (users s) /\ User.id y = id /\ x = data y.
Proof.
  intros K I. unfold by_id, updated in I. cbn [users] in I.
  apply filter_In in I. destruct I as [I E].
  apply in_map_iff in I. destruct I as (y & Y & I).
  exists y. split; [exact I|].
  destruct (String.eqb_spec (User.id y) id) as [Q|Q].
  - now split.
  - subst x. apply String.eqb_eq in E. contradiction.
Qed.

Lemma row_owned_claims r :
  row_owned r = true ->
  exists c sg, RefreshToken.token r = Compact c sg /\ jwt_userId c = RefreshToken.userId r.
Proof.
  unfold row_owned. destruct (RefreshToken.token r) as [raw|c sg]; [discriminate|].
  intro E. apply String.eqb_eq in E. now exists c, sg.
Qed.

(** [resetPassword] answers 200 only in that case: a 200 means a user row
    matched and the password passed the policy. *)
Lemma resetPassword_inv env body s resp s' :
  resetPassword env body s = (inr resp, s') ->
  status resp = 200 ->
  exists token password u,
    z.resetPasswordSchema body = inr (token, password)
    /\ AuthUtils.valid (AuthUtils.isPasswordStrong password) = true
    /\ find (fun u => AuthController.option_eqb (User.resetPasswordToken u) token
                      && AuthController.option_gt (User.resetPasswordExpires u) (now env))
            (users s) = Some u
    /\ s' = without_rows (User.id u)
              (updated (User.id u)
                 (AuthController.set_password
                    (AuthUtils.hashPassword bcrypt_hash env password)) s).
Proof.
  unfold AuthController.resetPassword. run.
  destruct (z.resetPasswordSchema body) as [e|[token password]] eqn:P; cbn.
  { destruct e; intros R St; injection R as <- <-; discriminate St. }
  destruct (AuthUtils.valid (AuthUtils.isPasswordStrong password)) eqn:V; cbn.
  2:{ intros R St; injection R as <- <-; discriminate St. }
  destruct (find _ (users s)) as [u|] eqn:F.
  2:{ intros R St; injection R as <- <-; discriminate St. }
  destruct (find (fun x => String.eqb (User.id x) (User.id u)) (users s)) as [x|] eqn:X.
  2:{ intros R St; injection R as <- <-; discriminate St. }
  own_googleId. cbn.
  destruct (sendMail env); cbn; intros R _; injection R as <- <-;
    exists token, password, u; repeat split; assumption.
Qed.

(** What [resetPassword] answers and does when a user row matches. *)
Lemma resetPassword_run env body s token password u :
  z.resetPasswordSchema body = inr (token, password) ->
  AuthUtils.valid (AuthUtils.isPasswordStrong password) = true ->
  find (fun u => AuthController.option_eqb (User.resetPasswordToken u) token
                 && AuthController.option_gt (User.resetPasswordExpires u) (now env))
       (users s) = Some u ->
  resetPassword env body s
  = (inr (res_json (J_message "Password reset successfully")),
     without_rows (User.id u)
       (updated (User.id u)
          (AuthController.set_password
             (AuthUtils.hashPassword bcrypt_hash env password)) s)).
Proof.
  intros P V F. destruct (find_some_find_id _ _ _ F) as [x X].
  unfold AuthController.resetPassword. run.
  rewrite P. cbn. rewrite V. cbn. rewrite F, X. own_googleId. cbn.
  now destruct (sendMail env).
Qed.

(** C1. When a reset-password request names a token that a user row
    carries with an expiry in the future, and the new password passes the
    policy, the request is answered 200; afterwards that user's row holds
    the hash of the new password and no reset token or expiry, no
    refresh-token row of that user is left (the rows of other users are
    kept), and a refresh-token call with any token that was stored for that
    user, or that names that user, is answered 401. *)
Theorem resetPassword_revokes_refresh_tokens env body s token password u :
  z.resetPasswordSchema body = inr (token, password) ->
  AuthUtils.valid (AuthUtils.isPasswordStrong password) = true ->
  find (fun u => AuthController.option_eqb (User.resetPasswordToken u) token
                 && AuthController.option_gt (User.resetPasswordExpires u) (now env))
       (users s) = Some u ->
  exists s',
    resetPassword env body s
    = (inr (res_json (J_message "Password reset successfully")), s')
    /\ users s'
       = users (updated (User.id u)
                  (AuthController.set_password
                     (AuthUtils.hashPassword bcrypt_hash env password)) s)
    /\ refreshTokens s'
       = filter (fun r => negb (String.eqb (RefreshToken.userId r) (User.id u)))
                (refreshTokens s)
    /\ by_id (User.id u) s' <> []
    /\ (forall x, In x (by_id (User.id u) s') ->
          User.password x = Some (AuthUtils.hashPassword bcrypt_hash env password)
          /\ User.resetPasswordToken x = None
          /\ User.resetPasswordExpires x = None)
    /\ rows_of (User.id u) s' = []
    /\ (forall env' body' c sg,
          b_refreshToken body' = Some (Compact c sg) ->
          jwt_userId c = User.id u ->
          refreshToken env' body' s'
          = (inr (res_status_json 401 (J_error "Invalid or expired refresh token")), s'))
    /\ (forall env' body' r,
          rows_owned s = true ->
          In r (refreshTokens s) ->
          RefreshToken.userId r = User.id u ->
          b_refreshToken body' = Some (RefreshToken.token r) ->
          refreshToken env' body' s'
          = (inr (res_status_json 401 (J_error "Invalid or expired refresh token")), s')).
Proof.
  intros P V F.
  set (data := AuthController.set_password
                 (AuthUtils.hashPassword bcrypt_hash env password)).
  exists (without_rows (User.id u) (updated (User.id u) data s)).
  assert (Rows : rows_of (User.id u) (without_rows (User.id u) (updated (User.id u) data s))
                 = []) by apply rows_of_after_delete.
  split; [exact (resetPassword_run env body s token password u P V F)|].
  split; [reflexivity|]. split; [reflexivity|].
  split; [|split; [|split; [exact Rows|split]]].
  - intro E.
    assert (I : In (data u) (by_id (User.id u) (updated (User.id u) data s))).
    { unfold by_id, updated. cbn [users]. apply filter_In. split.
      - apply in_map_iff. exists u. rewrite String.eqb_refl. split; [reflexivity|].
        apply find_some in F. exact (proj1 F).
      - cbn. apply String.eqb_refl. }
    unfold by_id in E, I. cbn [users without_rows] in E. rewrite E in I. contradiction.
  - intros y I.
    apply (by_id_updated (User.id u) data s y) in I; [|reflexivity].
    destruct I as (y0 & _ & _ & ->). repeat split.
  - intros env' body' c sg B U.
    apply (refreshToken_no_rows env' body' _ c sg B). rewrite U. exact Rows.
  - intros env' body' r O I U B.
    unfold rows_owned in O. rewrite forallb_forall in O.
    destruct (row_owned_claims r (O r I)) as (c & sg & T & W).
    rewrite T in B. apply (refreshToken_no_rows env' body' _ c sg B).
    rewrite W, U. exact Rows.
Qed.

(** ** Google sign-in *)


End Controller.

(* ================================================================== *)
(** * The rows of the refresh-token table stay owned *)

Section Invariant.
#[local] Set Default Proof Using "Type".
Variable hmac : string -> Claims -> string.
Variable bcrypt_hash : string -> string -> string.
Variable bcrypt_compare : string -> string -> bool.
Variable isEmail : string -> bool.

Lemma rows_owned_app s us r :
  rows_owned s = true -> row_owned r = true ->
  rows_owned (mkStore us (refreshTokens s ++ [r])) = true.
Proof.
  unfold rows_owned. cbn [refreshTokens]. intros O R.
  rewrite forallb_app, O. cbn. now rewrite R.
Qed.

Lemma generateRefreshToken_owned env userId expiresAt :
  row_owned (RefreshToken.mk (AuthUtils.generateRefreshToken hmac env userId)
                             userId expiresAt) = true.
Proof.
  unfold row_owned. cbn. apply String.eqb_refl.
Qed.

Lemma rows_owned_filter s us p :
  rows_owned s = true ->
  rows_owned (mkStore us (filter p (refreshTokens s))) = true.
Proof.
  unfold rows_owned. cbn [refreshTokens].
  intro O. rewrite forallb_forall in *. intros r I.
  apply filter_In in I. apply O. exact (proj1 I).
Qed.

(** Splits a handler into its paths and closes each with the fact that the
    rows are the old ones, the old ones filtered, or the old ones and one
    row written by [generateRefreshToken]. *)
Ltac keeps O :=
  run;
  repeat (cbn;
          match goal with
          | |- context [match ?x with _ => _ end] =>
              lazymatch x with
              | context [match _ with _ => _ end] => fail
              | _ => destruct x
              end
          end);
  cbn;
  (let R := fresh "R" in intro R; injection R as <- <-);
  first [ exact O
        | apply rows_owned_filter; exact O
        | apply (rows_owned_app (mkStore _ _)); [exact O | apply generateRefreshToken_owned]
        | apply rows_owned_app; [exact O | apply generateRefreshToken_owned] ].

(** Every handler keeps the rows owned: [login] and [googleAuth] store a
    refresh token under the user it names, [resetPassword], [logout] and
    [logoutAll] only delete rows, and the others leave the table alone. *)
Lemma login_keeps_rows_owned env body s r s' :
  rows_owned s = true ->
  AuthController.login hmac bcrypt_compare isEmail env body s = (r, s') ->
  rows_owned s' = true.
Proof. intro O. unfold AuthController.login. keeps O. Qed.

Lemma googleAuth_keeps_rows_owned env body s r s' :
  rows_owned s = true ->
  AuthController.googleAuth hmac env body s = (r, s') ->
  rows_owned s' = true.
Proof.
  intro O. unfold AuthController.googleAuth, AuthController.google_verify. keeps O.
Qed.

Lemma signup_keeps_rows_owned env body s r s' :
  rows_owned s = true ->
  AuthController.signup bcrypt_hash isEmail env body s = (r, s') ->
  rows_owned s' = true.
Proof. intro O. unfold AuthController.signup. keeps O. Qed.

Lemma verifyEmail_keeps_rows_owned env token s r s' :
  rows_owned s = true ->
  AuthController.verifyEmail env token s = (r, s') ->
  rows_owned s' = true.
Proof. intro O. unfold AuthController.verifyEmail. keeps O. Qed.

Lemma resendVerification_keeps_rows_owned env body s r s' :
  rows_owned s = true ->
  AuthController.resendVerification env body s = (r, s') ->
  rows_owned s' = true.
Proof. intro O. unfold AuthController.resendVerification. keeps O. Qed.

Lemma forgotPassword_keeps_rows_owned env body s r s' :
  rows_owned s = true ->
  AuthController.forgotPassword isEmail env body s = (r, s') ->
  rows_owned s' = true.
Proof. intro O. unfold AuthController.forgotPassword. keeps O. Qed.

Lemma resetPassword_keeps_rows_owned env body s r s' :
  rows_owned s = true ->
  AuthController.resetPassword bcrypt_hash env body s = (r, s') ->
  rows_owned s' = true.
Proof. intro O. unfold AuthController.resetPassword. keeps O. Qed.

Lemma refreshToken_keeps_rows_owned env body s r s' :
  rows_owned s = true ->
  AuthController.refreshToken hmac env body s = (r, s') ->
  rows_owned s' = true.
Proof. intro O. unfold AuthController.refreshToken. keeps O. Qed.

Lemma logout_keeps_rows_owned env body s r s' :
  rows_owned s = true ->
  AuthController.logout env body s = (r, s') ->
  rows_owned s' = true.
Proof. intro O. unfold AuthController.logout. keeps O. Qed.

Lemma logoutAll_keeps_rows_owned env userId s r s' :
  rows_owned s = true ->
  AuthController.logoutAll env userId s = (r, s') ->
  rows_owned s' = true.
Proof. intro O. unfold AuthController.logoutAll. keeps O. Qed.

(** [resetPassword] swallows a failure of the notification email. *)
Lemma resetPassword_swallows_email_failure env body s ok ok' :
  AuthController.resetPassword bcrypt_hash (with_sendMail ok env) body s
  = AuthController.resetPassword bcrypt_hash (with_sendMail ok' env) body s.
Proof.
  unfold AuthController.resetPassword, AuthUtils.hashPassword. run.
  destruct (z.resetPasswordSchema body) as [e|[token password]]; cbn; [reflexivity|].
  destruct (negb (AuthUtils.valid (AuthUtils.isPasswordStrong password)));
    [reflexivity|].
  destruct (find _ (users s)) as [u|]; [|reflexivity].
  destruct (find (fun x => String.eqb (User.id x) (User.id u)) (users s));
    [|reflexivity].
  now destruct ok, ok'.
Qed.
End Invariant.

(* ================================================================== *)
(** * The statements at concrete requests *)

Example refresh_after_login_works :
  let env := Demo.env true in
  let s := snd (AuthController.login Demo.hmac Demo.bcrypt_compare Demo.isEmail env
                  (Demo.login_body "alice@example.com" "Valid123!") Demo.store) in
  fst (AuthController.refreshToken Demo.hmac env
         (Demo.refresh_body (AuthUtils.generateRefreshToken Demo.hmac env "user-1")) s)
  = inr (res_json
           (J_accessToken_user (AuthUtils.generateAccessToken Demo.hmac env "user-1")
              (Some (AuthController.select_basic Demo.alice)))).
Proof. reflexivity. Qed.


Lemma resetPassword_revokes_refresh_tokens_witness :
  fst (AuthController.resetPassword Demo.bcrypt_hash (Demo.env true)
         (Demo.reset_body "r3s3t" "NewPass1!") Demo.store)
  = inr (res_json (J_message "Password reset successfully"))
  /\ rows_of "user-1" Demo.after_reset = []
  /\ AuthController.refreshToken Demo.hmac (Demo.env true)
       (Demo.refresh_body (RefreshToken.token Demo.alice_row)) Demo.after_reset
     = (inr (res_status_json 401 (J_error "Invalid or expired refresh token")),
        Demo.after_reset).
Proof.
  destruct (resetPassword_revokes_refresh_tokens Demo.hmac Demo.bcrypt_hash
              (Demo.env true) (Demo.reset_body "r3s3t" "NewPass1!") Demo.store
              "r3s3t" "NewPass1!" Demo.alice eq_refl eq_refl eq_refl)
    as (s' & R & _ & _ & _ & _ & Rows & _ & Stored).
  assert (E : s' = Demo.after_reset) by (unfold Demo.after_reset; now rewrite R).
  subst s'. split; [now rewrite R|]. split; [exact Rows|].
  apply (Stored (Demo.env true) _ Demo.alice_row); try reflexivity.
  left. reflexivity.
Defined.

Lemma login_unverified_rejected_witness :
  exists resp,
    AuthController.login Demo.hmac Demo.bcrypt_compare Demo.isEmail (Demo.env true)
      (Demo.login_body "bob@example.com" "Passw0rd!") Demo.store = (inr resp, Demo.store)
    /\ status resp = 401
    /\ json resp = J_error_code "Please verify your email address before logging in"
                                "EMAIL_NOT_VERIFIED"
    /\ carries_tokens resp = false.
Proof.
  apply (login_unverified_rejected Demo.hmac Demo.bcrypt_compare Demo.isEmail
           (Demo.env true) (Demo.login_body "bob@example.com" "Passw0rd!") Demo.store
           "bob@example.com" "Passw0rd!" Demo.bob (Demo.bcrypt_hash "Passw0rd!" "pq"));
    try reflexivity.
  discriminate.
Defined.

Lemma login_wrong_password_hides_verification_witness :
  AuthController.login Demo.hmac Demo.bcrypt_compare Demo.isEmail (Demo.env true)
    (Demo.login_body "bob@example.com" "Wr0ngPass!") Demo.store
  = (inr (res_status_json 401 (J_error "Invalid email or password")), Demo.store)
  /\ AuthController.login Demo.hmac Demo.bcrypt_compare Demo.isEmail (Demo.env true)
       (Demo.login_body "bob@example.com" "Wr0ngPass!")
       (with_isVerified "bob@example.com" true Demo.store)
     = (inr (res_status_json 401 (J_error "Invalid email or password")),
        with_isVerified "bob@example.com" true Demo.store).
Proof.
  destruct (login_wrong_password_hides_verification Demo.hmac Demo.bcrypt_compare
              Demo.isEmail (Demo.env true)
              (Demo.login_body "bob@example.com" "Wr0ngPass!") Demo.store
              "bob@example.com" "Wr0ngPass!" Demo.bob (Demo.bcrypt_hash "Passw0rd!" "pq")
              eq_refl eq_refl eq_refl ltac:(discriminate) eq_refl)
    as (Here & Flag & _).
  split; [exact Here | exact (Flag true)].
Defined.

(** C5 as stated fails: Alice's email is registered and the request passes
    shape validation, yet a password without an uppercase letter is answered
    400 with the policy's message, not 409. *)
Lemma signup_conflict_first_counterexample :
  let body := Demo.signup_body "alice@example.com" "alllower1!" "Alice" in
  let resp := fst (AuthController.signup Demo.bcrypt_hash Demo.isEmail (Demo.env true)
                     body Demo.store) in
  z.signupSchema Demo.isEmail body = inr ("alice@example.com", "alllower1!", "Alice")
  /\ by_email "alice@example.com" Demo.store = Some Demo.alice
  /\ resp = inr (res_status_json 400
                   (J_error "Password must contain at least one uppercase letter"))
  /\ resp <> inr (res_status_json 409 (J_error "User already exists with this email")).
Proof.
  cbv zeta. repeat split. vm_compute. discriminate.
Qed.

Lemma signup_registered_email_witness :
  exists resp,
    AuthController.signup Demo.bcrypt_hash Demo.isEmail (Demo.env true)
      (Demo.signup_body "alice@example.com" "Str0ng!Pass" "Alice") Demo.store
    = (inr resp, Demo.store)
    /\ resp = res_status_json 409 (J_error "User already exists with this email").
Proof.
  destruct (signup_registered_email Demo.bcrypt_hash Demo.isEmail (Demo.env true)
              (Demo.signup_body "alice@example.com" "Str0ng!Pass" "Alice") Demo.store
              "alice@example.com" "Str0ng!Pass" "Alice" Demo.alice eq_refl eq_refl)
    as (resp & R & Strong & _).
  exists resp. split; [exact R | exact (Strong eq_refl)].
Defined.

Lemma email_failure_reaches_caller_witness :
  fst (AuthController.resendVerification (Demo.env false)
         (Demo.email_body "bob@example.com") Demo.store)
  = inr (res_status_json 500 (J_error "Internal server error"))
  /\ fst (AuthController.forgotPassword Demo.isEmail (Demo.env false)
            (Demo.email_body "bob@example.com") Demo.store)
     = inr (res_status_json 500 (J_error "Internal server error")).
Proof.
  destruct (email_failure_reaches_caller Demo.isEmail (Demo.env false)
              (Demo.email_body "bob@example.com") Demo.store "bob@example.com" Demo.bob
              eq_refl eq_refl eq_refl eq_refl eq_refl)
    as (Resend & _ & Forgot & _).
  rewrite Resend, Forgot. split; reflexivity.
Defined.

Lemma forgotPassword_reveals_account_on_mail_failure_witness :
  fst (AuthController.forgotPassword Demo.isEmail (Demo.env false)
         (Demo.email_body "alice@example.com") Demo.store)
  <> fst (AuthController.forgotPassword Demo.isEmail (Demo.env false)
            (Demo.email_body "alice@example.com") (mkStore [Demo.bob] [])).
Proof.
  exact (proj2 (proj2
           (forgotPassword_reveals_account_on_mail_failure Demo.isEmail (Demo.env false)
              (Demo.email_body "alice@example.com") "alice@example.com"
              Demo.store Demo.alice (mkStore [Demo.bob] [])
              eq_refl eq_refl eq_refl eq_refl))).
Defined.



(* ================================================================== *)
(** * Further properties of the authentication core *)

(** ** Lists *)

Lemma find_app_none {A} (p : A -> bool) l l' :
  find p l = None -> find p (l ++ l') = find p l'.
Proof.
  induction l as [|a l IH]; [reflexivity|].
  cbn. destruct (p a); [discriminate|exact IH].
Qed.

Lemma find_app_last {A} (p : A -> bool) l x :
  p x = true -> exists y, find p (l ++ [x]) = Some y /\ p y = true.
Proof.
  intro P. destruct (find p (l ++ [x])) as [y|] eqn:F.
  - exists y. split; [reflexivity|]. apply find_some in F. exact (proj2 F).
  - pose proof (find_none _ _ F x) as N.
    rewrite N in P; [discriminate|]. apply in_or_app. right. now left.
Qed.

(** [find] over a table in which the rows selected by [c] were rewritten by
    [data], when the other rows fail [p] and the rewritten ones all give
    [b]. *)
Lemma find_map_cond {A} (p c : A -> bool) (data : A -> A) l b :
  (forall x, In x l -> c x = false -> p x = false) ->
  (forall x, c x = true -> p (data x) = b) ->
  find p (map (fun x => if c x then data x else x) l)
  = if b then option_map data (find c l) else None.
Proof.
  intros Other Data. induction l as [|a l IH]; [now destruct b|].
  cbn [map find].
  assert (IH' := IH (fun x I => Other x (or_intror I))). clear IH.
  destruct (c a) eqn:C.
  - rewrite (Data a C). destruct b; [reflexivity|exact IH'].
  - rewrite (Other a (or_introl eq_refl) C). exact IH'.
Qed.

Lemma forallb_In {A} (p : A -> bool) l x :
  forallb p l = true -> In x l -> p x = true.
Proof. intro F. rewrite forallb_forall in F. apply F. Qed.

Lemma JwtString_eqb_neq a b : JwtString_eqb a b = false <-> a <> b.
Proof.
  split.
  - intros E ->. now rewrite JwtString_eqb_refl in E.
  - intro N. destruct (JwtString_eqb a b) eqn:E; [|reflexivity].
    now apply JwtString_eqb_eq in E.
Qed.

(** ** The lifetime of a token *)

Section Lifetime.
#[local] Set Default Proof Using "Type".
Variable hmac : string -> Claims -> string.

(** X1. Under the same secret, an access token minted at one time verifies
    at another exactly while the second of the check is before the second
    of minting plus the access lifetime, and then gives back the user it
    was minted for; the same holds for a refresh token with the refresh
    lifetime. *)
Theorem token_valid_until_expiry env env' userId :
  JWT_SECRET env' = JWT_SECRET env ->
  AuthUtils.verifyAccessToken hmac env' (AuthUtils.generateAccessToken hmac env userId)
  = (if now env' / 1000 <? now env / 1000 + AuthUtils.access_expires env
     then inr userId
     else inl (Error "Invalid or expired token"))
  /\ AuthUtils.verifyRefreshToken hmac env' (AuthUtils.generateRefreshToken hmac env userId)
     = (if now env' / 1000 <? now env / 1000 + AuthUtils.refresh_expires env
        then inr userId
        else inl (Error "Invalid or expired refresh token")).
Proof.
  intro S.
  unfold AuthUtils.verifyAccessToken, AuthUtils.verifyRefreshToken.
  rewrite !verify_kind_spec.
  unfold AuthUtils.generateAccessToken, AuthUtils.generateRefreshToken, jwt.sign.
  cbn [jwt_exp jwt_type jwt_userId]. rewrite S, !String.eqb_refl. cbn [negb].
  split.
  - now destruct (now env' / 1000 <? now env / 1000 + AuthUtils.access_expires env).
  - now destruct (now env' / 1000 <? now env / 1000 + AuthUtils.refresh_expires env).
Qed.
End Lifetime.

(** With the default lifetimes: fourteen minutes after minting the access
    token still verifies, a quarter of an hour after it no longer does. *)
Lemma token_valid_until_expiry_witness :
  AuthUtils.verifyAccessToken Demo.hmac (at_time (1700000000000 + 14 * 60 * 1000) (Demo.env true))
    (AuthUtils.generateAccessToken Demo.hmac (Demo.env true) "user-1")
  = inr "user-1"
  /\ AuthUtils.verifyAccessToken Demo.hmac
       (at_time (1700000000000 + 15 * 60 * 1000) (Demo.env true))
       (AuthUtils.generateAccessToken Demo.hmac (Demo.env true) "user-1")
     = inl (Error "Invalid or expired token").
Proof.
  split.
  - exact (proj1 (token_valid_until_expiry Demo.hmac (Demo.env true)
                    (at_time (1700000000000 + 14 * 60 * 1000) (Demo.env true))
                    "user-1" eq_refl)).
  - exact (proj1 (token_valid_until_expiry Demo.hmac (Demo.env true)
                    (at_time (1700000000000 + 15 * 60 * 1000) (Demo.env true))
                    "user-1" eq_refl)).
Defined.

(** ** Email verification *)

Lemma option_eqb_eq v s : AuthController.option_eqb v s = true -> v = Some s.
Proof.
  destruct v as [x|]; cbn; [|discriminate].
  intro E. apply String.eqb_eq in E. now subst.
Qed.

Lemma option_eqb_refl s : AuthController.option_eqb (Some s) s = true.
Proof. cbn. apply String.eqb_refl. Qed.

Lemma verifyEmail_run env token s u :
  find (verification_pending env token) (users s) = Some u ->
  AuthController.verifyEmail env token s
  = (inr (res_json (J_message "Email verified successfully")),
     updated (User.id u) AuthController.set_verified s).
Proof.
  intro F. destruct (find_some_find_id _ _ _ F) as [x X].
  unfold verification_pending in F.
  unfold AuthController.verifyEmail. run. rewrite F, X. now own_googleId.
Qed.

Lemma verifyEmail_none env token s :
  find (verification_pending env token) (users s) = None ->
  AuthController.verifyEmail env token s
  = (inr (res_status_json 400 (J_error "Invalid or expired verification token")), s).
Proof.
  intro F. unfold verification_pending in F.
  unfold AuthController.verifyEmail. run. now rewrite F.
Qed.

(** The rows with the id of a row of the table, after that id was
    rewritten: there is one, and each is a rewritten row. *)
Lemma by_id_updated_some id data s u :
  (forall y, User.id (data y) = User.id y) ->
  In u (users s) -> User.id u = id ->
  by_id id (updated id data s) <> [].
Proof.
  intros K I E N.
  assert (X : In (data u) (by_id id (updated id data s))).
  { unfold by_id, updated. cbn [users]. apply filter_In. split.
    - apply in_map_iff. exists u. split; [|exact I].
      subst id. now rewrite String.eqb_refl.
    - rewrite K. subst id. apply String.eqb_refl. }
  rewrite N in X. contradiction.
Qed.

(** X2. A verification token that a user row carries with an expiry in the
    future is accepted: the answer is 200, the rows with that user's id
    become verified and lose token and expiry, and the refresh-token table
    is untouched. If no other user carried the token, it is single-use: the
    same token is refused with 400 by any later request. *)
Theorem verifyEmail_consumes_token env token s u :
  find (verification_pending env token) (users s) = Some u ->
  (forall x, In x (users s) -> User.verificationToken x = Some token ->
             User.id x = User.id u) ->
  exists s',
    AuthController.verifyEmail env token s
    = (inr (res_json (J_message "Email verified successfully")), s')
    /\ users s' = users (updated (User.id u) AuthController.set_verified s)
    /\ refreshTokens s' = refreshTokens s
    /\ by_id (User.id u) s' <> []
    /\ (forall x, In x (by_id (User.id u) s') ->
          User.isVerified x = true
          /\ User.verificationToken x = None
          /\ User.verificationExpires x = None)
    /\ (forall env',
          AuthController.verifyEmail env' token s'
          = (inr (res_status_json 400 (J_error "Invalid or expired verification token")),
             s')).
Proof.
  intros F Only.
  exists (updated (User.id u) AuthController.set_verified s).
  split; [exact (verifyEmail_run env token s u F)|].
  split; [reflexivity|]. split; [reflexivity|].
  split; [|split].
  - apply (by_id_updated_some _ _ _ u); [reflexivity| |reflexivity].
    apply find_some in F. exact (proj1 F).
  - intros x I. apply by_id_updated in I; [|reflexivity].
    destruct I as (y & _ & _ & ->). repeat split.
  - intro env'. apply verifyEmail_none.
    unfold updated. cbn [users].
    rewrite (find_map_cond (verification_pending env' token)
               (fun x => String.eqb (User.id x) (User.id u))
               AuthController.set_verified (users s) false); [reflexivity| |reflexivity].
    intros x I C. unfold verification_pending.
    destruct (AuthController.option_eqb (User.verificationToken x) token) eqn:T;
      [|reflexivity].
    apply option_eqb_eq in T. apply (Only x I) in T.
    rewrite T, String.eqb_refl in C. discriminate.
Qed.

(** X3. A verification token that no user row carries with an expiry after
    the time of the request (unknown, or expired) is refused with 400, and
    the store, so every [isVerified] flag, is left as it is. *)
Theorem verifyEmail_rejects_expired env token s :
  (forall x, In x (users s) -> User.verificationToken x = Some token ->
             AuthController.option_gt (User.verificationExpires x) (now env) = false) ->
  AuthController.verifyEmail env token s
  = (inr (res_status_json 400 (J_error "Invalid or expired verification token")), s).
Proof.
  intro Expired. apply verifyEmail_none.
  destruct (find _ (users s)) as [u|] eqn:F; [|reflexivity].
  apply find_some in F. destruct F as [I P]. unfold verification_pending in P.
  apply andb_true_iff in P. destruct P as [T G].
  apply option_eqb_eq in T. rewrite (Expired u I T) in G. discriminate.
Qed.

Lemma verifyEmail_consumes_token_witness :
  exists s',
    AuthController.verifyEmail (Demo.env true) "v3r1fy" Demo.store
    = (inr (res_json (J_message "Email verified successfully")), s')
    /\ option_map User.isVerified (by_email "bob@example.com" s') = Some true
    /\ AuthController.verifyEmail (Demo.env true) "v3r1fy" s'
       = (inr (res_status_json 400 (J_error "Invalid or expired verification token")),
          s').
Proof.
  destruct (verifyEmail_consumes_token (Demo.env true) "v3r1fy" Demo.store Demo.bob
              eq_refl) as (s' & R & U & _ & _ & _ & Again).
  - intros x [<-|[<-|[]]]; [discriminate|reflexivity].
  - exists s'. split; [exact R|]. split; [|exact (Again (Demo.env true))].
    unfold by_email. rewrite U. reflexivity.
Defined.

(** Bob's token at the instant its expiry is reached. *)
Lemma verifyEmail_rejects_expired_witness :
  AuthController.verifyEmail (at_time 1700000005000 (Demo.env true)) "v3r1fy" Demo.store
  = (inr (res_status_json 400 (J_error "Invalid or expired verification token")),
     Demo.store).
Proof.
  apply verifyEmail_rejects_expired.
  intros x [<-|[<-|[]]]; [discriminate|reflexivity].
Defined.

(** ** Sign up, verify, log in, refresh, log out *)

Section Flows.
#[local] Set Default Proof Using "Type".
Variable hmac : string -> Claims -> string.
Variable bcrypt_hash : string -> string -> string.
Variable bcrypt_compare : string -> string -> bool.
Variable isEmail : string -> bool.

Lemma signup_run env body s email password name :
  z.signupSchema isEmail body = inr (email, password, name) ->
  AuthUtils.valid (AuthUtils.isPasswordStrong password) = true ->
  by_email email s = None ->
  prisma.user.id_taken (cuid env) (users s) = false ->
  AuthController.signup bcrypt_hash isEmail env body s
  = (inr (res_status_json 201
            (J_message_user
               "Account created successfully. Please check your email to verify your account."
               (AuthController.select_created
                  (signed_up bcrypt_hash env email password name)))),
     with_user (signed_up bcrypt_hash env email password name) s).
Proof.
  intros P V F I. unfold AuthController.signup. run.
  rewrite P. cbn. rewrite V. cbn. rewrite F. cbn.
  rewrite I, (email_taken_find _ _ F). cbn.
  now destruct (sendMail env).
Qed.

Lemma login_run env body s email password u hash :
  z.loginSchema isEmail body = inr (email, password) ->
  by_email email s = Some u ->
  User.password u = Some hash -> hash <> "" ->
  bcrypt_compare password hash = true ->
  JWT_SECRET env <> "" ->
  AuthController.login hmac bcrypt_compare isEmail env body s
  = if User.isVerified u
    then (inr (res_json (J_message_user_tokens "Login successful"
                           (AuthController.select_basic u)
                           (token_pair hmac env (User.id u)))),
          with_row (session_row hmac env (User.id u)) s)
    else (inr (res_status_json 401
                 (J_error_code "Please verify your email address before logging in"
                               "EMAIL_NOT_VERIFIED")),
          s).
Proof.
  intros P F H N C J.
  unfold AuthController.login, AuthUtils.comparePassword. run.
  rewrite P. cbn. rewrite F, H, (truthy_intro _ N), C, (generate_check_ok env J). cbn.
  now destruct (User.isVerified u).
Qed.

Lemma by_email_with_user email s u :
  by_email email s = None -> User.email u = email ->
  by_email email (with_user u s) = Some u.
Proof.
  intros F E. unfold by_email, with_user in *. cbn [users].
  rewrite (find_app_none _ _ _ F). cbn. now rewrite E, String.eqb_refl.
Qed.

Lemma by_email_updated email id data s :
  (forall x, User.email (data x) = User.email x) ->
  by_email email (updated id data s)
  = option_map (fun x => if String.eqb (User.id x) id then data x else x)
               (by_email email s).
Proof.
  intro K. unfold by_email, updated. cbn [users].
  apply find_map_preserving. intro x.
  destruct (String.eqb (User.id x) id); [now rewrite K|reflexivity].
Qed.

Lemma verification_pending_unused env token s :
  verification_token_unused token s = true ->
  find (verification_pending env token) (users s) = None.
Proof.
  intro U. destruct (find _ (users s)) as [u|] eqn:F; [|reflexivity].
  apply find_some in F. destruct F as [I P].
  apply (forallb_In _ _ _ U) in I. unfold verification_pending in P.
  apply andb_true_iff in P. destruct P as [T _]. rewrite T in I. discriminate.
Qed.

(** X4. A signup with a new email and a password that passes the policy
    creates an unverified user and is answered 201. Until the email is
    verified a login with the right password is refused with
    EMAIL_NOT_VERIFIED; the emailed token, presented within 24 hours,
    verifies the account; after that the same login is answered 200 with a
    token pair for the new user and one refresh-token row is stored. The
    hypotheses on the digest are what bcrypt gives: the password matches
    its own hash, and a hash is not empty. The generated id is one no row
    has, and the login that succeeds runs with a signing secret
    configured. *)
Theorem signup_verify_login env1 env2 env3 body lbody s email password name :
  z.signupSchema isEmail body = inr (email, password, name) ->
  AuthUtils.valid (AuthUtils.isPasswordStrong password) = true ->
  by_email email s = None ->
  prisma.user.id_taken (cuid env1) (users s) = false ->
  JWT_SECRET env3 <> "" ->
  verification_token_unused (AuthUtils.generateVerificationToken env1) s = true ->
  z.loginSchema isEmail lbody = inr (email, password) ->
  bcrypt_compare password (AuthUtils.hashPassword bcrypt_hash env1 password) = true ->
  AuthUtils.hashPassword bcrypt_hash env1 password <> "" ->
  now env2 < now env1 + AuthController.day ->
  let new := signed_up bcrypt_hash env1 email password name in
  let s1 := with_user new s in
  let s2 := updated (User.id new) AuthController.set_verified s1 in
  AuthController.signup bcrypt_hash isEmail env1 body s
  = (inr (res_status_json 201
            (J_message_user
               "Account created successfully. Please check your email to verify your account."
               (AuthController.select_created new))),
     s1)
  /\ User.isVerified new = false
  /\ AuthController.login hmac bcrypt_compare isEmail env3 lbody s1
     = (inr (res_status_json 401
               (J_error_code "Please verify your email address before logging in"
                             "EMAIL_NOT_VERIFIED")),
        s1)
  /\ AuthController.verifyEmail env2 (AuthUtils.generateVerificationToken env1) s1
     = (inr (res_json (J_message "Email verified successfully")), s2)
  /\ AuthController.login hmac bcrypt_compare isEmail env3 lbody s2
     = (inr (res_json (J_message_user_tokens "Login successful"
                         (AuthController.select_basic (AuthController.set_verified new))
                         (token_pair hmac env3 (User.id new)))),
        with_row (session_row hmac env3 (User.id new)) s2).
Proof.
  intros P V F I J U L C N T new s1 s2.
  assert (F1 : by_email email s1 = Some new)
    by (apply by_email_with_user; [exact F|reflexivity]).
  assert (F2 : by_email email s2 = Some (AuthController.set_verified new)).
  { unfold s2. rewrite by_email_updated; [|reflexivity].
    rewrite F1. cbn [option_map]. now rewrite String.eqb_refl. }
  split; [exact (signup_run env1 body s email password name P V F I)|].
  split; [reflexivity|].
  split; [|split].
  - rewrite (login_run env3 lbody s1 email password new _ L F1 eq_refl N C J).
    reflexivity.
  - apply verifyEmail_run. unfold s1, with_user. cbn [users].
    rewrite (find_app_none _ _ _ (verification_pending_unused env2 _ s U)).
    cbn [find]. unfold verification_pending, new, signed_up.
    cbn [User.verificationToken User.verificationExpires].
    rewrite option_eqb_refl. cbn [andb AuthController.option_gt].
    replace (now env1 + AuthController.day >? now env2) with true; [reflexivity|].
    symmetry. apply Z.gtb_lt. exact T.
  - rewrite (login_run env3 lbody s2 email password (AuthController.set_verified new)
               _ L F2 eq_refl N C J).
    reflexivity.
Qed.

Lemma verifyRefreshToken_fresh env env' userId :
  JWT_SECRET env' = JWT_SECRET env ->
  now env' / 1000 < now env / 1000 + AuthUtils.refresh_expires env ->
  AuthUtils.verifyRefreshToken hmac env' (AuthUtils.generateRefreshToken hmac env userId)
  = inr userId.
Proof.
  intros S T. unfold AuthUtils.verifyRefreshToken. rewrite verify_kind_spec.
  unfold AuthUtils.generateRefreshToken, jwt.sign.
  cbn [jwt_exp jwt_type jwt_userId]. rewrite S, !String.eqb_refl. cbn [negb].
  replace (now env' / 1000 <? now env / 1000 + AuthUtils.refresh_expires env) with true;
    [reflexivity|].
  symmetry. now apply Z.ltb_lt.
Qed.

Lemma verifyAccessToken_fresh env env' userId :
  JWT_SECRET env' = JWT_SECRET env ->
  now env' / 1000 < now env / 1000 + AuthUtils.access_expires env ->
  AuthUtils.verifyAccessToken hmac env' (AuthUtils.generateAccessToken hmac env userId)
  = inr userId.
Proof.
  intros S T. unfold AuthUtils.verifyAccessToken. rewrite verify_kind_spec.
  unfold AuthUtils.generateAccessToken, jwt.sign.
  cbn [jwt_exp jwt_type jwt_userId]. rewrite S, !String.eqb_refl. cbn [negb].
  replace (now env' / 1000 <? now env / 1000 + AuthUtils.access_expires env) with true;
    [reflexivity|].
  symmetry. now apply Z.ltb_lt.
Qed.

(** A refresh with the token of a session row of the store, while token and
    row are unexpired. *)
Lemma refreshToken_session env env' body s userId :
  JWT_SECRET env <> "" ->
  JWT_SECRET env' = JWT_SECRET env ->
  now env' / 1000 < now env / 1000 + AuthUtils.refresh_expires env ->
  now env' < now env + 7 * AuthController.day ->
  b_refreshToken body = Some (AuthUtils.generateRefreshToken hmac env userId) ->
  AuthController.refreshToken hmac env' body (with_row (session_row hmac env userId) s)
  = (inr (res_json
            (J_accessToken_user
               (AuthUtils.generateAccessToken hmac env' userId)
               (option_map AuthController.select_basic
                  (find (fun u => String.eqb (User.id u) userId) (users s))))),
     with_row (session_row hmac env userId) s).
Proof.
  intros J S T R B. unfold AuthController.refreshToken. run. rewrite B.
  replace (truthy_token (Some (AuthUtils.generateRefreshToken hmac env userId)))
    with (Some (AuthUtils.generateRefreshToken hmac env userId)) by reflexivity.
  rewrite (verifyRefreshToken_fresh env env' userId S T).
  rewrite <- S in J. rewrite (generate_check_ok env' J).
  unfold with_row. cbn [refreshTokens users].
  destruct (find_app_last
              (fun r => JwtString_eqb (RefreshToken.token r)
                          (AuthUtils.generateRefreshToken hmac env userId)
                        && String.eqb (RefreshToken.userId r) userId
                        && (RefreshToken.expiresAt r >? now env'))
              (refreshTokens s) (session_row hmac env userId)) as (y & Y & PY).
  { unfold session_row.
    cbn [RefreshToken.token RefreshToken.userId RefreshToken.expiresAt].
    rewrite JwtString_eqb_refl, String.eqb_refl. cbn [andb].
    apply Z.gtb_lt. exact R. }
  rewrite Y. unfold AuthController.include_user. cbn [users].
  apply andb_true_iff in PY. destruct PY as [PY _].
  apply andb_true_iff in PY. destruct PY as [_ PY].
  apply String.eqb_eq in PY. now rewrite PY.
Qed.

(** X5. A login of a verified user with the right password is answered 200
    with a token pair, leaves the users as they are and appends exactly one
    refresh-token row, owned by the user and expiring in seven days. The
    refresh token it hands out is then good for new access tokens: while
    neither the token nor the row has expired, a refresh-token call with it
    is answered 200 with an access token for the same user and that user's
    snapshot. All of it with a signing secret configured. *)
Theorem login_session_refreshable env body s email password u hash :
  z.loginSchema isEmail body = inr (email, password) ->
  by_email email s = Some u ->
  User.password u = Some hash -> hash <> "" ->
  bcrypt_compare password hash = true ->
  User.isVerified u = true ->
  JWT_SECRET env <> "" ->
  exists s',
    AuthController.login hmac bcrypt_compare isEmail env body s
    = (inr (res_json (J_message_user_tokens "Login successful"
                        (AuthController.select_basic u)
                        (token_pair hmac env (User.id u)))),
       s')
    /\ users s' = users s
    /\ refreshTokens s' = (refreshTokens s ++ [session_row hmac env (User.id u)])%list
    /\ (forall env' rbody,
          JWT_SECRET env' = JWT_SECRET env ->
          now env' / 1000 < now env / 1000 + AuthUtils.refresh_expires env ->
          now env' < now env + 7 * AuthController.day ->
          b_refreshToken rbody = Some (refreshToken (token_pair hmac env (User.id u))) ->
          AuthController.refreshToken hmac env' rbody s'
          = (inr (res_json
                    (J_accessToken_user
                       (AuthUtils.generateAccessToken hmac env' (User.id u))
                       (option_map AuthController.select_basic
                          (find (fun x => String.eqb (User.id x) (User.id u))
                                (users s))))),
             s')).
Proof.
  intros P F H N C V J.
  exists (with_row (session_row hmac env (User.id u)) s).
  split.
  - rewrite (login_run env body s email password u hash P F H N C J), V. reflexivity.
  - split; [reflexivity|]. split; [reflexivity|].
    intros env' rbody S T R B. now apply refreshToken_session.
Qed.

(** A refresh with a token that no row carries. *)
Lemma refreshToken_unknown env body s t :
  b_refreshToken body = Some t ->
  (forall r, In r (refreshTokens s) -> RefreshToken.token r <> t) ->
  falsy_token (Some t) = false ->
  AuthController.refreshToken hmac env body s
  = (inr (res_status_json 401 (J_error "Invalid or expired refresh token")), s).
Proof.
  intros B N Tr. unfold AuthController.refreshToken. run. rewrite B.
  unfold truthy_token. rewrite Tr.
  destruct (AuthUtils.verifyRefreshToken hmac env t) as [e|uid]; [reflexivity|].
  destruct (find _ (refreshTokens s)) as [r|] eqn:F; [|reflexivity].
  apply find_some in F. destruct F as [I P].
  apply andb_true_iff in P. destruct P as [P _].
  apply andb_true_iff in P. destruct P as [P _].
  apply JwtString_eqb_eq in P. now apply N in I.
Qed.

Lemma filter_idem {A} (p : A -> bool) l : filter p (filter p l) = filter p l.
Proof.
  induction l as [|a l IH]; [reflexivity|].
  cbn. destruct (p a) eqn:E; [|exact IH]. cbn. now rewrite E, IH.
Qed.

(** X6. A logout that names a token is answered 200, deletes exactly the
    refresh-token rows that carry this token and touches no user. After it
    a refresh-token call with that token is answered 401, and logging out
    again with it changes nothing and is answered 200 as well. *)
Theorem logout_revokes_token env body s t :
  truthy_token (b_refreshToken body) = Some t ->
  exists s',
    AuthController.logout env body s
    = (inr (res_json (J_message "Logged out successfully")), s')
    /\ users s' = users s
    /\ (forall r, In r (refreshTokens s') <->
                  In r (refreshTokens s) /\ RefreshToken.token r <> t)
    /\ (forall env' rbody,
          b_refreshToken rbody = Some t ->
          AuthController.refreshToken hmac env' rbody s'
          = (inr (res_status_json 401 (J_error "Invalid or expired refresh token")), s'))
    /\ (forall env',
          AuthController.logout env' body s'
          = (inr (res_json (J_message "Logged out successfully")), s')).
Proof.
  intro T.
  set (keep := fun r => negb (JwtString_eqb (RefreshToken.token r) t)).
  exists (mkStore (users s) (filter keep (refreshTokens s))).
  assert (Rows : forall r, In r (filter keep (refreshTokens s)) <->
                           In r (refreshTokens s) /\ RefreshToken.token r <> t).
  { intro r. rewrite filter_In. unfold keep. rewrite negb_true_iff, JwtString_eqb_neq.
    reflexivity. }
  assert (Tr : falsy_token (Some t) = false).
  { unfold truthy_token in T. destruct (falsy_token (b_refreshToken body)) eqn:E;
      [discriminate|]. now rewrite T in E. }
  split; [|split; [reflexivity|split; [exact Rows|split]]].
  - unfold AuthController.logout. run. now rewrite T.
  - intros env' rbody B. apply (refreshToken_unknown env' rbody _ t B); [|exact Tr].
    cbn [refreshTokens]. intros r I. apply Rows in I. exact (proj2 I).
  - intro env'. unfold AuthController.logout. run. rewrite T.
    cbn [users refreshTokens]. fold keep. now rewrite filter_idem.
Qed.

(** X7. Logging out of all devices is always answered 200; it deletes
    exactly the refresh-token rows of the given user, touches no user row
    and no row of another user, and afterwards a refresh-token call with any
    token that names this user is answered 401. *)
Theorem logoutAll_revokes_user env userId s :
  exists s',
    AuthController.logoutAll env userId s
    = (inr (res_json (J_message "Logged out from all devices successfully")), s')
    /\ users s' = users s
    /\ (forall r, In r (refreshTokens s') <->
                  In r (refreshTokens s) /\ RefreshToken.userId r <> userId)
    /\ rows_of userId s' = []
    /\ (forall env' rbody c sg,
          b_refreshToken rbody = Some (Compact c sg) ->
          jwt_userId c = userId ->
          AuthController.refreshToken hmac env' rbody s'
          = (inr (res_status_json 401 (J_error "Invalid or expired refresh token")), s')).
Proof.
  exists (without_rows userId s).
  split; [reflexivity|]. split; [reflexivity|].
  split; [|split; [apply rows_of_after_delete|]].
  - intro r. unfold without_rows. cbn [refreshTokens].
    rewrite filter_In, negb_true_iff. split; intros [I E]; split; try exact I.
    + intro Q. rewrite Q, String.eqb_refl in E. discriminate.
    + now apply String.eqb_neq.
  - intros env' rbody c sg B U.
    apply (refreshToken_no_rows hmac env' rbody _ c sg B).
    rewrite U. apply rows_of_after_delete.
Qed.
End Flows.

(** ** Tokens sent by email *)

Section MailedTokens.
#[local] Set Default Proof Using "Type".
Variable bcrypt_hash : string -> string -> string.
Variable isEmail : string -> bool.

Lemma reset_pending_unused token s :
  reset_token_unused token s = true ->
  forall x, In x (users s) ->
            AuthController.option_eqb (User.resetPasswordToken x) token = false.
Proof.
  intros U x I. apply (forallb_In _ _ _ U) in I. now apply negb_true_iff in I.
Qed.

Lemma resetPassword_none env body s token password :
  z.resetPasswordSchema body = inr (token, password) ->
  AuthUtils.valid (AuthUtils.isPasswordStrong password) = true ->
  find (reset_pending env token) (users s) = None ->
  AuthController.resetPassword bcrypt_hash env body s
  = (inr (res_status_json 400 (J_error "Invalid or expired reset token")), s).
Proof.
  intros P V F. unfold reset_pending in F.
  unfold AuthController.resetPassword. run.
  rewrite P. cbn. rewrite V. cbn. now rewrite F.
Qed.

(** A row of a table in which one id was rewritten, with another id, is a
    row of the table before. *)
Lemma In_updated_other id data s x :
  In x (users (updated id data s)) -> String.eqb (User.id x) id = false ->
  (forall y, User.id (data y) = User.id y) ->
  In x (users s).
Proof.
  unfold updated. cbn [users]. intros I E K.
  apply in_map_iff in I. destruct I as (y & Y & I).
  destruct (String.eqb (User.id y) id) eqn:C; [|now subst].
  subst x. rewrite K, C in E. discriminate.
Qed.

(** X8. A resend-verification request for an unverified account replaces
    the stored token even when the email then fails to send: afterwards
    the new token, presented within 24 hours, verifies the account, and a
    token that only this account carried before is refused with 400. *)
Theorem resendVerification_rotates_token env env2 body s email u old :
  b_email body = Some email ->
  by_email email s = Some u ->
  User.isVerified u = false ->
  old <> AuthUtils.generateVerificationToken env ->
  (forall x, In x (users s) -> User.verificationToken x = Some old ->
             User.id x = User.id u) ->
  verification_token_unused (AuthUtils.generateVerificationToken env) s = true ->
  now env2 < now env + AuthController.day ->
  exists resp s1 s2,
    AuthController.resendVerification env body s = (inr resp, s1)
    /\ status resp = (if sendMail env then 200 else 500)
    /\ AuthController.verifyEmail env2 old s1
       = (inr (res_status_json 400 (J_error "Invalid or expired verification token")),
          s1)
    /\ AuthController.verifyEmail env2 (AuthUtils.generateVerificationToken env) s1
       = (inr (res_json (J_message "Email verified successfully")), s2)
    /\ by_id (User.id u) s2 <> []
    /\ (forall x, In x (by_id (User.id u) s2) -> User.isVerified x = true).
Proof.
  intros B F V Neq Only Unused T.
  set (new := AuthUtils.generateVerificationToken env) in *.
  set (data := AuthController.set_verification new (now env + AuthController.day)).
  set (s1 := updated (User.id u) data s).
  destruct (by_email_find_id _ _ _ F) as [x0 X0].
  assert (Id0 : User.id x0 = User.id u).
  { apply find_some in X0. now apply String.eqb_eq. }
  exists (if sendMail env
          then res_json (J_message "Verification email sent successfully")
          else res_status_json 500 (J_error "Internal server error")),
         s1, (updated (User.id u) AuthController.set_verified s1).
  split; [exact (resendVerification_run env body s email u B F V)|].
  split; [now destruct (sendMail env)|].
  split; [|split; [|split]].
  - apply verifyEmail_none. unfold s1, updated. cbn [users].
    rewrite (find_map_cond (verification_pending env2 old)
               (fun x => String.eqb (User.id x) (User.id u)) data (users s) false);
      [reflexivity| |].
    + intros x I C. unfold verification_pending.
      destruct (AuthController.option_eqb (User.verificationToken x) old) eqn:E;
        [|reflexivity].
      apply option_eqb_eq in E. apply (Only x I) in E.
      rewrite E, String.eqb_refl in C. discriminate.
    + intros x _. unfold verification_pending, data. cbn.
      replace (String.eqb new old) with false; [reflexivity|].
      symmetry. apply String.eqb_neq. congruence.
  - assert (Fd : find (verification_pending env2 new) (users s1) = Some (data x0)).
    { unfold s1, updated. cbn [users].
      rewrite (find_map_cond (verification_pending env2 new)
                 (fun x => String.eqb (User.id x) (User.id u)) data (users s) true).
      - now rewrite X0.
      - intros x I _. unfold verification_pending.
        apply (forallb_In _ _ _ Unused) in I. apply negb_true_iff in I.
        now rewrite I.
      - intros x _. unfold verification_pending, data. cbn.
        rewrite String.eqb_refl. cbn. apply Z.gtb_lt. exact T. }
    rewrite (verifyEmail_run env2 new s1 (data x0) Fd).
    cbn [data AuthController.set_verification User.id]. now rewrite Id0.
  - apply (by_id_updated_some _ _ _ (data x0)); [reflexivity| |exact Id0].
    unfold s1, updated. cbn [users]. apply in_map_iff. exists x0.
    rewrite Id0, String.eqb_refl. split; [reflexivity|].
    apply find_some in X0. exact (proj1 X0).
  - intros x I. apply by_id_updated in I; [|reflexivity].
    destruct I as (y & _ & _ & ->). reflexivity.
Qed.

(** X9. The token that a forgot-password request stores for an account
    resets the password once and for one hour: presented with a password
    that passes the policy before the hour is over it is answered 200 and
    the account gets the hash of the new password; presented again, it is
    refused with 400; presented when the hour is over, it is refused with
    400 and nothing changes. *)
Theorem forgotPassword_token_resets_once env env2 body rbody s email u password :
  z.forgotPasswordSchema isEmail body = inr email ->
  by_email email s = Some u ->
  reset_token_unused (AuthUtils.generateResetToken env) s = true ->
  z.resetPasswordSchema rbody = inr (AuthUtils.generateResetToken env, password) ->
  AuthUtils.valid (AuthUtils.isPasswordStrong password) = true ->
  exists resp s1,
    AuthController.forgotPassword isEmail env body s = (inr resp, s1)
    /\ (now env2 < now env + AuthController.hour ->
        exists s2,
          AuthController.resetPassword bcrypt_hash env2 rbody s1
          = (inr (res_json (J_message "Password reset successfully")), s2)
          /\ by_id (User.id u) s2 <> []
          /\ (forall x, In x (by_id (User.id u) s2) ->
                User.password x = Some (AuthUtils.hashPassword bcrypt_hash env2 password))
          /\ (forall env3,
                AuthController.resetPassword bcrypt_hash env3 rbody s2
                = (inr (res_status_json 400 (J_error "Invalid or expired reset token")),
                   s2)))
    /\ (now env + AuthController.hour <= now env2 ->
        AuthController.resetPassword bcrypt_hash env2 rbody s1
        = (inr (res_status_json 400 (J_error "Invalid or expired reset token")), s1)).
Proof.
  intros P F Unused RP V.
  set (tok := AuthUtils.generateResetToken env) in *.
  set (data := AuthController.set_reset tok (now env + AuthController.hour)).
  set (s1 := updated (User.id u) data s).
  destruct (by_email_find_id _ _ _ F) as [x0 X0].
  assert (Id0 : User.id x0 = User.id u).
  { apply find_some in X0. now apply String.eqb_eq. }
  assert (In0 : In x0 (users s)) by (apply find_some in X0; exact (proj1 X0)).
  assert (Find : forall b,
             (now env + AuthController.hour >? now env2) = b ->
             find (reset_pending env2 tok) (users s1)
             = if b then Some (data x0) else None).
  { intros b E. unfold s1, updated. cbn [users].
    rewrite (find_map_cond (reset_pending env2 tok)
               (fun x => String.eqb (User.id x) (User.id u)) data (users s) b).
    - now rewrite X0.
    - intros x I _. unfold reset_pending.
      now rewrite (reset_pending_unused tok s Unused x I).
    - intros x _. unfold reset_pending, data. cbn. now rewrite String.eqb_refl. }
  exists (if sendMail env
          then res_json (J_message AuthController.forgot_message)
          else res_status_json 500 (J_error "Internal server error")), s1.
  split; [exact (forgotPassword_run isEmail env body s email u P F)|]. split.
  - intro T.
    set (pw := AuthController.set_password
                 (AuthUtils.hashPassword bcrypt_hash env2 password)).
    set (s2 := without_rows (User.id u) (updated (User.id u) pw s1)).
    exists s2.
    assert (Fd : find (reset_pending env2 tok) (users s1) = Some (data x0))
      by (apply (Find true); apply Z.gtb_lt; exact T).
    split; [|split; [|split]].
    + unfold reset_pending in Fd.
      rewrite (resetPassword_run bcrypt_hash env2 rbody s1 tok password (data x0) RP V Fd).
      cbn [data AuthController.set_reset User.id]. now rewrite Id0.
    + unfold s2, by_id, without_rows. cbn [users].
      apply (by_id_updated_some (User.id u) pw s1 (data x0)); [reflexivity| |exact Id0].
      unfold s1, updated. cbn [users]. apply in_map_iff. exists x0.
      now rewrite Id0, String.eqb_refl.
    + intros x I. unfold s2, by_id, without_rows in I. cbn [users] in I.
      apply (by_id_updated (User.id u) pw s1 x) in I; [|reflexivity].
      destruct I as (y & _ & _ & ->). reflexivity.
    + intro env3. apply (resetPassword_none env3 rbody s2 tok password RP V).
      unfold s2, without_rows. cbn [users]. unfold updated at 1. cbn [users].
      rewrite (find_map_cond (reset_pending env3 tok)
                 (fun x => String.eqb (User.id x) (User.id u)) pw (users s1) false);
        [reflexivity| |reflexivity].
      intros x I C.
      pose proof (In_updated_other (User.id u) data s x I C (fun y => eq_refl)) as I0.
      unfold reset_pending. now rewrite (reset_pending_unused tok s Unused x I0).
  - intro T. apply (resetPassword_none env2 rbody s1 tok password RP V).
    apply (Find false). rewrite Z.gtb_ltb. apply Z.ltb_ge. exact T.
Qed.
End MailedTokens.

(** ** Google sign-in and password login *)

Section Federation.
#[local] Set Default Proof Using "Type".
Variable hmac : string -> Claims -> string.
Variable bcrypt_compare : string -> string -> bool.
Variable isEmail : string -> bool.

(** What [googleAuth] does once the provider has given an email, when the
    tokens can be signed and the user row can be written. *)
Lemma googleAuth_run env body s token g email :
  JWT_SECRET env <> "" ->
  (by_email email s = None -> prisma.user.id_taken (cuid env) (users s) = false) ->
  (forall x sb, In x (users s) -> sub g = Some sb -> User.googleId x = Some sb ->
                by_email email s = Some x) ->
  truthy (b_token body) = Some token ->
  AuthController.google_verify env token = inr (Some g) ->
  truthy (g_email g) = Some email ->
  exists user s0,
    AuthController.googleAuth hmac env body s
    = (inr (res_json (J_message_user_tokens "Google authentication successful"
                        (AuthController.select_google user)
                        (token_pair hmac env (User.id user)))),
       with_row (session_row hmac env (User.id user)) s0)
    /\ refreshTokens s0 = refreshTokens s
    /\ match by_email email s with
       | None => user = AuthController.new_google_user env email g
                 /\ s0 = with_user user s
       | Some u =>
           exists x, find (fun y => String.eqb (User.id y) (User.id u)) (users s) = Some x
                     /\ if falsy (User.googleId u) && negb (falsy (sub g))
                        then user = AuthController.set_google (sub g) (g_picture g) x
                             /\ s0 = updated (User.id u)
                                       (AuthController.set_google (sub g) (g_picture g)) s
                        else user = u /\ s0 = s
       end.
Proof.
  intros J Fresh U T G E. unfold AuthController.googleAuth. run.
  rewrite T, G, E, (generate_check_ok env J).
  destruct (find _ (users s)) as [u|] eqn:F; cbv beta iota.
  - destruct (find_some_find_id _ _ _ F) as [x X].
    destruct (falsy (User.googleId u) && negb (falsy (sub g))) eqn:C.
    + rewrite X.
      rewrite (googleId_taken_none
                 (User.googleId (AuthController.set_google (sub g) (g_picture g) x))
                 (filter (fun y => negb (String.eqb (User.id y) (User.id u))) (users s))).
      2:{ cbn [User.googleId AuthController.set_google]. intros y sb I S A.
          apply filter_In in I. destruct I as [I _].
          pose proof (U y sb I S A) as B. injection B as ->.
          rewrite A, S in C. now destruct (falsy (Some sb)). }
      rewrite andb_false_r.
      exists (AuthController.set_google (sub g) (g_picture g) x),
             (updated (User.id u) (AuthController.set_google (sub g) (g_picture g)) s).
      split; [reflexivity|]. split; [reflexivity|]. exists x. repeat split.
    + exists u, s. split; [reflexivity|]. split; [reflexivity|].
      exists x. repeat split. exact X.
  - change (User.id (AuthController.new_google_user env email g)) with (cuid env).
    change (User.email (AuthController.new_google_user env email g)) with email.
    rewrite (Fresh eq_refl), (email_taken_find _ _ F).
    rewrite (googleId_taken_none
               (User.googleId (AuthController.new_google_user env email g)) (users s)).
    2:{ cbn [User.googleId AuthController.new_google_user]. intros y sb I S A.
        pose proof (U y sb I S A) as B. discriminate B. }
    exists (AuthController.new_google_user env email g),
           (with_user (AuthController.new_google_user env email g) s).
    repeat split.
Qed.

(** The same for a new email, with the unique index as a test. *)
Lemma googleAuth_new env body s token g email :
  JWT_SECRET env <> "" ->
  prisma.user.id_taken (cuid env) (users s) = false ->
  prisma.user.googleId_taken (sub g) (users s) = false ->
  truthy (b_token body) = Some token ->
  AuthController.google_verify env token = inr (Some g) ->
  truthy (g_email g) = Some email ->
  by_email email s = None ->
  AuthController.googleAuth hmac env body s
  = (inr (res_json (J_message_user_tokens "Google authentication successful"
                      (AuthController.select_google
                         (AuthController.new_google_user env email g))
                      (token_pair hmac env (cuid env)))),
     with_row (session_row hmac env (cuid env))
       (with_user (AuthController.new_google_user env email g) s)).
Proof.
  intros J Fresh Free T G E F.
  assert (Own : forall x sb, In x (users s) -> sub g = Some sb ->
                             User.googleId x = Some sb -> by_email email s = Some x).
  { intros x sb I S A. exfalso. rewrite S in Free.
    exact (googleId_taken_In sb (users s) x Free I A). }
  destruct (googleAuth_run env body s token g email J (fun _ => Fresh) Own T G E)
    as (user & s0 & R & _ & New).
  rewrite F in New. destruct New as [-> ->]. exact R.
Qed.

(** X10. [googleAuth] always answers, and hands out tokens only together
    with a stored session: either the answer is 200 with a token pair for a
    user and exactly one refresh-token row for that user was appended, or
    the answer is 400 (no token in the request) or 401 (the provider did not
    accept the token, or gave no email), carries no token and the store is
    unchanged, or the answer is 500 (the user row could not be written, or
    the tokens could not be signed), carries no token and no refresh-token
    row was added. *)
Theorem googleAuth_tokens_with_session env body s :
  exists resp s',
    AuthController.googleAuth hmac env body s = (inr resp, s')
    /\ ((status resp = 200
         /\ exists user,
             json resp = J_message_user_tokens "Google authentication successful"
                           (AuthController.select_google user)
                           (token_pair hmac env (User.id user))
             /\ refreshTokens s'
                = (refreshTokens s ++ [session_row hmac env (User.id user)])%list)
        \/ ((status resp = 400 \/ status resp = 401)
            /\ carries_tokens resp = false
            /\ s' = s)
        \/ (status resp = 500
            /\ carries_tokens resp = false
            /\ refreshTokens s' = refreshTokens s)).
Proof.
  unfold AuthController.googleAuth. run.
  destruct (truthy (b_token body)) as [token|].
  2:{ eexists. eexists. split; [reflexivity|]. right. left. cbn. auto. }
  destruct (AuthController.google_verify env token) as [sent|[g|]] eqn:G.
  - eexists. eexists. split; [reflexivity|]. right. left.
    unfold AuthController.google_verify in G.
    destruct (verifyIdToken env token); [|discriminate].
    destruct (userinfo env token); [|discriminate].
    injection G as <-. cbn. auto.
  - destruct (truthy (g_email g)) as [email|].
    2:{ eexists. eexists. split; [reflexivity|]. right. left. cbn. auto. }
    destruct (AuthUtils.generate_check env) as [e|[]].
    + destruct (find _ (users s)) as [u|]; cbv beta iota.
      * destruct (falsy (User.googleId u) && negb (falsy (sub g))).
        -- destruct (find _ (users s)) as [x|]; [destruct (negb _ && _)|];
             eexists; eexists; (split; [reflexivity|]); right; right; cbn; auto.
        -- eexists. eexists. split; [reflexivity|]. right. right. cbn. auto.
      * destruct (prisma.user.id_taken _ _);
          [|destruct (prisma.user.email_taken _ _);
            [|destruct (prisma.user.googleId_taken _ _)]];
          eexists; eexists; (split; [reflexivity|]); right; right; cbn; auto.
    + destruct (find _ (users s)) as [u|]; cbv beta iota.
      * destruct (falsy (User.googleId u) && negb (falsy (sub g))).
        -- destruct (find _ (users s)) as [x|].
           2:{ eexists. eexists. split; [reflexivity|]. right. right. cbn. auto. }
           destruct (negb _ && _).
           { eexists. eexists. split; [reflexivity|]. right. right. cbn. auto. }
           eexists. eexists. split; [reflexivity|]. left. split; [reflexivity|].
           exists (AuthController.set_google (sub g) (g_picture g) x).
           split; reflexivity.
        -- eexists. eexists. split; [reflexivity|]. left. split; [reflexivity|].
           exists u. split; reflexivity.
      * destruct (prisma.user.id_taken _ _).
        { eexists. eexists. split; [reflexivity|]. right. right. cbn. auto. }
        destruct (prisma.user.email_taken _ _).
        { eexists. eexists. split; [reflexivity|]. right. right. cbn. auto. }
        destruct (prisma.user.googleId_taken _ _).
        { eexists. eexists. split; [reflexivity|]. right. right. cbn. auto. }
        eexists. eexists. split; [reflexivity|]. left. split; [reflexivity|].
        exists (AuthController.new_google_user env email g).
        split; reflexivity.
  - eexists. eexists. split; [reflexivity|]. right. left. cbn. auto.
Qed.

(** X11. An account created by [googleAuth] has no password: when a
    Google request for a new email creates the account (a signing secret is
    configured, the generated id and the provider's subject are carried by
    no row), a password login with its email, whatever the password, is
    answered with the generic 401 and changes nothing. *)
Theorem google_account_has_no_password_login env env' body lbody s token g email password :
  JWT_SECRET env <> "" ->
  prisma.user.id_taken (cuid env) (users s) = false ->
  prisma.user.googleId_taken (sub g) (users s) = false ->
  truthy (b_token body) = Some token ->
  AuthController.google_verify env token = inr (Some g) ->
  truthy (g_email g) = Some email ->
  by_email email s = None ->
  z.loginSchema isEmail lbody = inr (email, password) ->
  exists resp s1,
    AuthController.googleAuth hmac env body s = (inr resp, s1)
    /\ status resp = 200
    /\ option_map User.password (by_email email s1) = Some None
    /\ AuthController.login hmac bcrypt_compare isEmail env' lbody s1
       = (inr (res_status_json 401 (J_error "Invalid email or password")), s1).
Proof.
  intros J Fresh Free T G E F L.
  eexists. eexists.
  split; [exact (googleAuth_new env body s token g email J Fresh Free T G E F)|].
  split; [reflexivity|].
  assert (F1 : by_email email
                 (with_row (session_row hmac env (cuid env))
                    (with_user (AuthController.new_google_user env email g) s))
               = Some (AuthController.new_google_user env email g)).
  { apply (by_email_with_user email s _ F). reflexivity. }
  split; [now rewrite F1|].
  unfold AuthController.login. run. rewrite L. cbv beta iota.
  now rewrite F1.
Qed.

(** X12. Signing in with Google twice with the same email creates one user,
    not two: after a first request for a new email, a second request whose
    token resolves to that email is answered 200, adds no user row and
    appends a second refresh-token row. Both requests run with a signing
    secret configured; the generated id and the subjects the provider gives
    are carried by no row before the first request. *)
Theorem googleAuth_twice_one_user env env2 body body2 s token token2 g g2 email :
  JWT_SECRET env <> "" ->
  JWT_SECRET env2 <> "" ->
  prisma.user.id_taken (cuid env) (users s) = false ->
  prisma.user.googleId_taken (sub g) (users s) = false ->
  prisma.user.googleId_taken (sub g2) (users s) = false ->
  truthy (b_token body) = Some token ->
  AuthController.google_verify env token = inr (Some g) ->
  truthy (g_email g) = Some email ->
  by_email email s = None ->
  truthy (b_token body2) = Some token2 ->
  AuthController.google_verify env2 token2 = inr (Some g2) ->
  truthy (g_email g2) = Some email ->
  exists resp1 s1 resp2 s2,
    AuthController.googleAuth hmac env body s = (inr resp1, s1)
    /\ AuthController.googleAuth hmac env2 body2 s1 = (inr resp2, s2)
    /\ status resp1 = 200 /\ status resp2 = 200
    /\ List.length (users s1) = S (List.length (users s))
    /\ List.length (users s2) = List.length (users s1)
    /\ List.length (refreshTokens s2) = S (S (List.length (refreshTokens s))).
Proof.
  intros J J2 Fresh Free Free2 T G E F T2 G2 E2.
  pose proof (googleAuth_new env body s token g email J Fresh Free T G E F) as R.
  set (new := AuthController.new_google_user env email g) in *.
  set (s1 := with_row (session_row hmac env (cuid env)) (with_user new s)) in *.
  assert (F1 : by_email email s1 = Some new)
    by (apply (by_email_with_user email s new F); reflexivity).
  assert (Found : by_email email s1 = None ->
                  prisma.user.id_taken (cuid env2) (users s1) = false)
    by (rewrite F1; discriminate).
  assert (Own : forall x sb, In x (users s1) -> sub g2 = Some sb ->
                             User.googleId x = Some sb -> by_email email s1 = Some x).
  { intros x sb I S A. rewrite F1. f_equal.
    unfold s1, with_row, with_user in I. cbn [users] in I.
    apply in_app_or in I. destruct I as [I|[<-|[]]]; [|reflexivity].
    exfalso. rewrite S in Free2.
    exact (googleId_taken_In sb (users s) x Free2 I A). }
  destruct (googleAuth_run env2 body2 s1 token2 g2 email J2 Found Own T2 G2 E2)
    as (user2 & s02 & R2 & Rows2 & Old).
  rewrite F1 in Old. destruct Old as (x & _ & Old).
  eexists. exists s1. eexists. eexists.
  split; [exact R|]. split; [exact R2|]. split; [reflexivity|]. split; [reflexivity|].
  split; [|split].
  - unfold s1, with_row, with_user. cbn [users]. rewrite length_app. cbn. lia.
  - cbn [with_row users].
    destruct (falsy (User.googleId new) && negb (falsy (sub g2)));
      destruct Old as [_ ->]; [|reflexivity].
    unfold updated. cbn [users]. apply length_map.
  - cbn [with_row refreshTokens]. rewrite length_app, Rows2.
    unfold s1, with_row, with_user. cbn [refreshTokens]. rewrite length_app. cbn. lia.
Qed.

(** X13. [login] always answers, and hands out tokens only to a verified
    user and only together with a stored session: either the answer is 200
    with a token pair for a verified user of the store and exactly one
    refresh-token row for that user was appended, or the answer is 400, 401
    or (when the tokens cannot be signed) 500, carries no token and the
    store is unchanged. *)
Theorem login_tokens_with_session env body s :
  exists resp s',
    AuthController.login hmac bcrypt_compare isEmail env body s = (inr resp, s')
    /\ ((status resp = 200
         /\ exists u,
             In u (users s) /\ User.isVerified u = true
             /\ json resp = J_message_user_tokens "Login successful"
                              (AuthController.select_basic u)
                              (token_pair hmac env (User.id u))
             /\ s' = with_row (session_row hmac env (User.id u)) s)
        \/ ((status resp = 400 \/ status resp = 401 \/ status resp = 500)
            /\ carries_tokens resp = false
            /\ s' = s)).
Proof.
  unfold AuthController.login, AuthUtils.comparePassword, AuthUtils.generate_check. run.
  destruct (z.loginSchema isEmail body) as [e|[email password]] eqn:P; cbn.
  { unfold z.loginSchema, z.parse in P.
    destruct (_ ++ _)%list; [destruct (b_email body); [destruct (b_password body)|]|];
      try discriminate; injection P as <-;
      eexists; eexists; (split; [reflexivity|]); right; cbn; auto. }
  destruct (find _ (users s)) as [u|] eqn:F.
  2:{ eexists. eexists. split; [reflexivity|]. right. cbn. auto. }
  destruct (truthy (User.password u)) as [h|].
  2:{ eexists. eexists. split; [reflexivity|]. right. cbn. auto. }
  destruct (bcrypt_compare password h); cbn.
  2:{ eexists. eexists. split; [reflexivity|]. right. cbn. auto. }
  destruct (User.isVerified u) eqn:V; cbn.
  2:{ eexists. eexists. split; [reflexivity|]. right. cbn. auto. }
  destruct (jwt.sign_throws (JWT_SECRET env)).
  { eexists. eexists. split; [reflexivity|]. right. cbn. auto. }
  eexists. eexists. split; [reflexivity|]. left. split; [reflexivity|].
  exists u. apply find_some in F. repeat split; [exact (proj1 F)|exact V].
Qed.
End Federation.

(** ** The request authenticator *)

Section Gate.
#[local] Set Default Proof Using "Type".
Variable hmac : string -> Claims -> string.
Variable bcrypt_hash : string -> string -> string.
Variable bcrypt_compare : string -> string -> bool.
Variable isEmail : string -> bool.

Lemma authMiddleware_run env h s :
  middleware.authMiddleware hmac env h s
  = (inr match h with
         | middleware.Bearer t =>
             match AuthUtils.verifyAccessToken hmac env t with
             | inr userId =>
                 match find (fun u => String.eqb (User.id u) userId && User.isVerified u)
                            (users s) with
                 | Some u => middleware.Next (middleware.attach u)
                 | None =>
                     middleware.Sent
                       (res_status_json 401 (J_error "Invalid token or user not found"))
                 end
             | inl _ =>
                 middleware.Sent (res_status_json 401 (J_error "Invalid or expired token"))
             end
         | _ => middleware.Sent (res_status_json 401 (J_error "Access token required"))
         end,
     s).
Proof.
  unfold middleware.authMiddleware, middleware.findVerified. run.
  destruct h as [|raw|t]; try reflexivity.
  destruct (AuthUtils.verifyAccessToken hmac env t); [reflexivity|]. cbn.
  now destruct (find _ (users s)).
Qed.

(** X14. The authenticator never changes the store and never throws. It
    lets a request through only when the header is a bearer token that
    verifies as an access token and a verified user of the store has the id
    the token names; what it attaches is that user's id and snapshot. In
    every other case it answers 401. *)
Theorem authMiddleware_admits_verified_bearer env h s :
  exists outcome,
    middleware.authMiddleware hmac env h s = (inr outcome, s)
    /\ match outcome with
       | middleware.Next attached =>
           exists t u,
             h = middleware.Bearer t
             /\ AuthUtils.verifyAccessToken hmac env t = inr (User.id u)
             /\ In u (users s)
             /\ User.isVerified u = true
             /\ attached = middleware.attach u
       | middleware.Sent response => status response = 401
       end.
Proof.
  eexists. split; [apply authMiddleware_run|].
  destruct h as [|raw|t]; try reflexivity.
  destruct (AuthUtils.verifyAccessToken hmac env t) as [e|uid] eqn:V; [reflexivity|].
  destruct (find _ (users s)) as [u|] eqn:F; [|reflexivity].
  apply find_some in F. destruct F as [I P].
  apply andb_true_iff in P. destruct P as [E Ver]. apply String.eqb_eq in E.
  exists t, u. subst uid. now repeat split.
Qed.

(** X15. A refresh token is no bearer credential: presented to the
    authenticator, a token minted by [generateRefreshToken] is always
    answered 401 "Invalid or expired token". *)
Theorem authMiddleware_rejects_refresh_token env env' userId s :
  middleware.authMiddleware hmac env'
    (middleware.Bearer (AuthUtils.generateRefreshToken hmac env userId)) s
  = (inr (middleware.Sent (res_status_json 401 (J_error "Invalid or expired token"))), s).
Proof.
  rewrite authMiddleware_run.
  unfold AuthUtils.verifyAccessToken. rewrite verify_kind_spec.
  unfold AuthUtils.generateRefreshToken, jwt.sign. cbn [jwt_type jwt_exp jwt_userId].
  destruct (negb (String.eqb _ _)); [reflexivity|].
  destruct (negb (_ <? _)); reflexivity.
Qed.

Lemma distinct_find_verified l u :
  distinct (map User.id l) = true -> In u l -> User.isVerified u = true ->
  find (fun x => String.eqb (User.id x) (User.id u) && User.isVerified x) l = Some u.
Proof.
  induction l as [|a l IH]; simpl; [contradiction|].
  intros D I V. apply andb_true_iff in D. destruct D as [D1 D2].
  destruct I as [->|I]; [now rewrite String.eqb_refl, V|].
  destruct (String.eqb_spec (User.id a) (User.id u)) as [E|_]; [|now apply IH].
  apply negb_true_iff in D1.
  assert (X : existsb (String.eqb (User.id a)) (map User.id l) = true).
  { apply existsb_exists. exists (User.id u). split.
    - now apply in_map.
    - now apply String.eqb_eq. }
  congruence.
Qed.

(** X16. The access token a login hands out opens the protected routes for
    its lifetime: while the token has not expired, the authenticator lets a
    request that bears it through and attaches the id and the snapshot of
    the user who logged in. The signing secret is configured, and the same
    at both requests. *)
Theorem login_access_token_admitted env env' body s email password u hash :
  users_pkey s = true ->
  z.loginSchema isEmail body = inr (email, password) ->
  by_email email s = Some u ->
  User.password u = Some hash -> hash <> "" ->
  bcrypt_compare password hash = true ->
  User.isVerified u = true ->
  JWT_SECRET env <> "" ->
  JWT_SECRET env' = JWT_SECRET env ->
  now env' / 1000 < now env / 1000 + AuthUtils.access_expires env ->
  exists tokens s',
    AuthController.login hmac bcrypt_compare isEmail env body s
    = (inr (res_json (J_message_user_tokens "Login successful"
                        (AuthController.select_basic u) tokens)),
       s')
    /\ middleware.authMiddleware hmac env' (middleware.Bearer (accessToken tokens)) s'
       = (inr (middleware.Next (middleware.attach u)), s').
Proof.
  intros K P F H N C V J S T.
  exists (token_pair hmac env (User.id u)),
         (with_row (session_row hmac env (User.id u)) s).
  split.
  - rewrite (login_run hmac bcrypt_compare isEmail env body s email password u hash
               P F H N C J), V. reflexivity.
  - rewrite authMiddleware_run. cbn [token_pair accessToken].
    rewrite (verifyAccessToken_fresh hmac env env' (User.id u) S T).
    cbn [with_row users].
    rewrite (distinct_find_verified (users s) u K); [reflexivity| |exact V].
    unfold by_email in F. apply find_some in F. exact (proj1 F).
Qed.

(** X17. The optional authenticator never answers itself, leaves the store
    alone, and attaches an identity exactly when the strict one would let
    the request through, the same identity. *)
Theorem optionalAuthMiddleware_agrees env h s :
  middleware.optionalAuthMiddleware hmac env h s
  = (inr match fst (middleware.authMiddleware hmac env h s) with
         | inr (middleware.Next attached) => Some attached
         | _ => None
         end,
     s).
Proof.
  rewrite authMiddleware_run. cbn [fst].
  unfold middleware.optionalAuthMiddleware, middleware.findVerified. run.
  destruct h as [|raw|t]; try reflexivity.
  destruct (AuthUtils.verifyAccessToken hmac env t); [reflexivity|]. cbn.
  now destruct (find _ (users s)).
Qed.

(** X18. The logout-all route deletes sessions only for an authenticated
    caller, and only the caller's: either the authenticator answered 401
    and the store is unchanged, or the bearer token verified for a verified
    user, the answer is 200, and exactly that user's refresh-token rows
    were deleted. *)
Theorem logout_all_route_guarded env h s :
  exists resp s',
    routes.auth hmac bcrypt_hash bcrypt_compare isEmail env (routes.POST_logout_all h) s
    = (inr resp, s')
    /\ ((status resp = 401 /\ s' = s)
        \/ (exists t u,
              h = middleware.Bearer t
              /\ AuthUtils.verifyAccessToken hmac env t = inr (User.id u)
              /\ In u (users s)
              /\ User.isVerified u = true
              /\ resp = res_json (J_message "Logged out from all devices successfully")
              /\ s' = without_rows (User.id u) s)).
Proof.
  unfold routes.auth, bind. rewrite authMiddleware_run.
  destruct h as [|raw|t];
    try (eexists; eexists; split; [reflexivity|]; left; now split).
  destruct (AuthUtils.verifyAccessToken hmac env t) as [e|uid] eqn:V;
    try (eexists; eexists; split; [reflexivity|]; left; now split).
  destruct (find _ (users s)) as [u|] eqn:F;
    try (eexists; eexists; split; [reflexivity|]; left; now split).
  apply find_some in F. destruct F as [I P].
  apply andb_true_iff in P. destruct P as [E Ver]. apply String.eqb_eq in E.
  eexists. eexists. split; [reflexivity|]. right.
  exists t, u. subst uid. now repeat split.
Qed.
End Gate.

(** ** The router as a whole *)

(** Splits a handler into its paths, keeping what was found on each. *)
Ltac paths :=
  run;
  repeat (cbn;
          match goal with
          | |- context [match ?x with _ => _ end] =>
              lazymatch x with
              | context [match _ with _ => _ end] => fail
              | _ => destruct x eqn:?
              end
          end);
  cbn.

Ltac open_router req :=
  destruct req;
  unfold routes.auth, AuthController.signup, AuthController.login,
    AuthController.forgotPassword, AuthController.resetPassword,
    AuthController.verifyEmail, AuthController.resendVerification,
    AuthController.refreshToken, AuthController.logout, AuthController.googleAuth,
    AuthController.google_verify, AuthController.logoutAll,
    middleware.authMiddleware, middleware.findVerified.

Section Router.
#[local] Set Default Proof Using "Type".
Variable hmac : string -> Claims -> string.
Variable bcrypt_hash : string -> string -> string.
Variable bcrypt_compare : string -> string -> bool.
Variable isEmail : string -> bool.

Local Abbreviation auth := (routes.auth hmac bcrypt_hash bcrypt_compare isEmail).
Local Abbreviation serve := (routes.serve hmac bcrypt_hash bcrypt_compare isEmail).

(** X19. Every request to the authentication router is answered: no
    handler lets an exception escape, and the status is one of 200, 201,
    400, 401, 404, 409 and 500. An answer in the 4xx range means that
    nothing was written: the store is the one before the request. *)
Theorem router_answers_and_rejects_cleanly env req s :
  exists resp s',
    auth env req s = (inr resp, s')
    /\ In (status resp) [200; 201; 400; 401; 404; 409; 500]
    /\ (400 <= status resp < 500 -> s' = s).
Proof.
  open_router req; paths;
    (eexists; eexists; split; [reflexivity|]; split;
     [ cbn; repeat (first [left; reflexivity | right])
     | cbn; intro St; first [reflexivity | exfalso; clear - St; lia] ]).
Qed.







(** *** Invariants of the store *)

(** Each request takes one step on each table. *)
Lemma auth_step env req s :
  users_step s (users (snd (auth env req s)))
  /\ rows_step hmac s (refreshTokens (snd (auth env req s))).
Proof.
  open_router req; paths; split;
    first [ apply users_same
          | apply users_updated; intro; repeat split; cbn; auto
          | apply users_created; assumption
          | apply rows_same
          | apply rows_deleted
          | eapply rows_session ].
Qed.

Lemma rows_step_owned s rows :
  rows_step hmac s rows -> rows_owned s = true -> forallb row_owned rows = true.
Proof.
  intros [|keep|env userId] O; [exact O| |].
  - unfold rows_owned in O. rewrite forallb_forall in *. intros r I.
    apply filter_In in I. apply O. exact (proj1 I).
  - rewrite forallb_app. unfold rows_owned in O. rewrite O. cbn [forallb andb].
    unfold session_row. now rewrite generateRefreshToken_owned.
Qed.

Lemma distinct_app_new l x :
  distinct l = true -> existsb (String.eqb x) l = false ->
  distinct (l ++ [x]) = true.
Proof.
  induction l as [|a l IH]; [reflexivity|].
  cbn. intros D E. apply andb_true_iff in D. destruct D as [D1 D2].
  apply orb_false_iff in E. destruct E as [E1 E2].
  rewrite (IH D2 E2), andb_true_r. rewrite existsb_app. cbn.
  apply negb_true_iff in D1. rewrite D1. cbn.
  rewrite orb_false_r, String.eqb_sym. now rewrite E1.
Qed.

Lemma users_step_emails s us :
  users_step s us -> emails_unique s = true -> distinct (map User.email us) = true.
Proof.
  intros [|id data K|new F] O; [exact O| |].
  - rewrite map_map. rewrite (map_ext _ User.email); [exact O|].
    intro x. destruct (String.eqb (User.id x) id); [apply (K x)|reflexivity].
  - rewrite map_app. cbn [map]. apply distinct_app_new; [exact O|].
    unfold by_email in F. clear - F.
    induction (users s) as [|a l IH]; [reflexivity|].
    cbn in *. destruct (String.eqb (User.email a) (User.email new)) eqn:Q;
      [discriminate|].
    rewrite String.eqb_sym, Q. cbn. now apply IH.
Qed.

Lemma users_step_kept s s' : users_step s (users s') -> users_kept s s'.
Proof.
  intro St. inversion St as [E|id data K E|new F E].
  - exists (fun u => u), []. split; [now rewrite map_id, app_nil_r|].
    intro u. now repeat split.
  - exists (fun x => if String.eqb (User.id x) id then data x else x), [].
    split; [now rewrite app_nil_r|].
    intro u. destruct (String.eqb (User.id u) id); [apply K|now repeat split].
  - exists (fun u => u), [new]. split; [now rewrite map_id|].
    intro u. now repeat split.
Qed.

Lemma users_kept_trans s1 s2 s3 :
  users_kept s1 s2 -> users_kept s2 s3 -> users_kept s1 s3.
Proof.
  intros (f & n & E & K) (g & m & E' & K').
  exists (fun u => g (f u)), (map g n ++ m)%list. split.
  - now rewrite E', E, map_app, map_map, app_assoc.
  - intro u. destruct (K u) as (A & B & C), (K' (f u)) as (A' & B' & C').
    repeat split; [congruence|congruence|auto].
Qed.

(** X21. Whatever requests are served, one after the other, every stored
    refresh-token row carries a token whose [userId] claim is the row's
    owner, provided this held before (as it does in the empty store):
    [login] and [googleAuth] store a token under the user it names, and
    nothing else writes to the table. *)
Theorem served_rows_stay_owned requests s :
  rows_owned s = true -> rows_owned (serve requests s) = true.
Proof.
  revert s. induction requests as [|[env req] rest IH]; intros s O; [exact O|].
  cbn [routes.serve]. apply IH.
  exact (rows_step_owned s _ (proj2 (auth_step env req s)) O).
Qed.

(** X22. Whatever requests are served, no two users ever share an email,
    provided none did before: [signup] and [googleAuth] create a user only
    after looking the email up and finding none, and no update changes an
    email. *)
Theorem served_emails_stay_unique requests s :
  emails_unique s = true -> emails_unique (serve requests s) = true.
Proof.
  revert s. induction requests as [|[env req] rest IH]; intros s O; [exact O|].
  cbn [routes.serve]. apply IH.
  exact (users_step_emails s _ (proj1 (auth_step env req s)) O).
Qed.

(** X23. Whatever requests are served, no user row is ever deleted, no
    user's id or email changes, and a verified user stays verified: the
    rows of the store before are all still there, in place, with these
    fields kept, followed by the rows created since. *)
Theorem served_users_are_kept requests s : users_kept s (serve requests s).
Proof.
  revert s. induction requests as [|[env req] rest IH]; intro s.
  - apply users_step_kept. apply users_same.
  - cbn [routes.serve]. eapply users_kept_trans; [|apply IH].
    apply users_step_kept. exact (proj1 (auth_step env req s)).
Qed.
End Router.

(* ================================================================== *)
(** * The further properties at concrete requests *)

(** Carol signs up, verifies a second later, and logs in. *)
Lemma signup_verify_login_witness :
  let env := Demo.env true in
  let later := at_time 1700000001000 env in
  let s1 := snd (AuthController.signup Demo.bcrypt_hash Demo.isEmail env
                   (Demo.signup_body "carol@example.com" "Str0ng!Pass" "Carol")
                   Demo.store) in
  let s2 := snd (AuthController.verifyEmail later "a1b2c3" s1) in
  exists resp,
    fst (AuthController.login Demo.hmac Demo.bcrypt_compare Demo.isEmail later
           (Demo.login_body "carol@example.com" "Str0ng!Pass") s2) = inr resp
    /\ status resp = 200
    /\ carries_tokens resp = true.
Proof.
  cbv zeta.
  pose proof (signup_verify_login Demo.hmac Demo.bcrypt_hash Demo.bcrypt_compare
                Demo.isEmail (Demo.env true) (at_time 1700000001000 (Demo.env true))
                (at_time 1700000001000 (Demo.env true))
                (Demo.signup_body "carol@example.com" "Str0ng!Pass" "Carol")
                (Demo.login_body "carol@example.com" "Str0ng!Pass")
                Demo.store "carol@example.com" "Str0ng!Pass" "Carol"
                eq_refl eq_refl eq_refl eq_refl ltac:(discriminate)
                eq_refl eq_refl eq_refl ltac:(discriminate) eq_refl) as H.
  cbv zeta in H. destruct H as (_ & _ & _ & _ & L).
  eexists. split; [exact (f_equal fst L)|]. split; reflexivity.
Defined.

(** Alice logs in and refreshes a minute later. *)
Lemma login_session_refreshable_witness :
  let env := Demo.env true in
  let r := AuthController.login Demo.hmac Demo.bcrypt_compare Demo.isEmail env
             (Demo.login_body "alice@example.com" "Valid123!") Demo.store in
  exists resp,
    fst (AuthController.refreshToken Demo.hmac (at_time 1700000060000 env)
           (Demo.refresh_body (AuthUtils.generateRefreshToken Demo.hmac env "user-1"))
           (snd r)) = inr resp
    /\ status resp = 200.
Proof.
  cbv zeta.
  destruct (login_session_refreshable Demo.hmac Demo.bcrypt_compare Demo.isEmail
              (Demo.env true) (Demo.login_body "alice@example.com" "Valid123!")
              Demo.store "alice@example.com" "Valid123!" Demo.alice
              (Demo.bcrypt_hash "Valid123!" "xy")
              eq_refl eq_refl eq_refl ltac:(discriminate) eq_refl eq_refl
              ltac:(discriminate))
    as (s' & L & _ & _ & R).
  rewrite L. cbn [snd].
  rewrite (R (at_time 1700000060000 (Demo.env true))
             (Demo.refresh_body
                (AuthUtils.generateRefreshToken Demo.hmac (Demo.env true) "user-1"))
             eq_refl eq_refl eq_refl eq_refl).
  eexists. split; reflexivity.
Defined.

(** Alice logs out with her stored token. *)
Lemma logout_revokes_token_witness :
  let body := Demo.refresh_body (RefreshToken.token Demo.alice_row) in
  exists s',
    AuthController.logout (Demo.env true) body Demo.store
    = (inr (res_json (J_message "Logged out successfully")), s')
    /\ AuthController.refreshToken Demo.hmac (Demo.env true) body s'
       = (inr (res_status_json 401 (J_error "Invalid or expired refresh token")), s').
Proof.
  cbv zeta.
  destruct (logout_revokes_token Demo.hmac (Demo.env true)
              (Demo.refresh_body (RefreshToken.token Demo.alice_row)) Demo.store
              (RefreshToken.token Demo.alice_row) eq_refl)
    as (s' & L & _ & _ & R & _).
  exists s'. split; [exact L|]. apply R. reflexivity.
Defined.

(** Bob asks for a new verification email while the mail server is down. *)
Lemma resendVerification_rotates_token_witness :
  let s1 := snd (AuthController.resendVerification (Demo.env false)
                   (Demo.email_body "bob@example.com") Demo.store) in
  AuthController.verifyEmail (Demo.env true) "v3r1fy" s1
  = (inr (res_status_json 400 (J_error "Invalid or expired verification token")), s1)
  /\ fst (AuthController.verifyEmail (Demo.env true) "a1b2c3" s1)
     = inr (res_json (J_message "Email verified successfully")).
Proof.
  cbv zeta.
  destruct (resendVerification_rotates_token (Demo.env false) (Demo.env true)
              (Demo.email_body "bob@example.com") Demo.store "bob@example.com"
              Demo.bob "v3r1fy" eq_refl eq_refl eq_refl ltac:(discriminate))
    as (resp & s1 & s2 & R & _ & Old & New & _); try reflexivity.
  - intros x [<-|[<-|[]]]; [discriminate|reflexivity].
  - rewrite R. cbn [snd]. split; [exact Old | exact (f_equal fst New)].
Defined.

(** Alice asks for a reset link and uses it 59 minutes later. *)
Lemma forgotPassword_token_resets_once_witness :
  let s1 := snd (AuthController.forgotPassword Demo.isEmail (Demo.env true)
                   (Demo.email_body "alice@example.com") Demo.store) in
  exists s2,
    AuthController.resetPassword Demo.bcrypt_hash
      (at_time (1700000000000 + 59 * 60 * 1000) (Demo.env true))
      (Demo.reset_body "a1b2c3" "NewPass1!") s1
    = (inr (res_json (J_message "Password reset successfully")), s2).
Proof.
  cbv zeta.
  destruct (forgotPassword_token_resets_once Demo.bcrypt_hash Demo.isEmail
              (Demo.env true) (at_time (1700000000000 + 59 * 60 * 1000) (Demo.env true))
              (Demo.email_body "alice@example.com")
              (Demo.reset_body "a1b2c3" "NewPass1!") Demo.store
              "alice@example.com" Demo.alice "NewPass1!"
              eq_refl eq_refl eq_refl eq_refl eq_refl)
    as (resp & s1 & F & InTime & _).
  rewrite F. cbn [snd]. destruct (InTime eq_refl) as (s2 & R & _).
  exists s2. exact R.
Defined.

(** Carol arrives through Google and then tries a password. *)
Lemma google_account_has_no_password_login_witness :
  let s1 := snd (AuthController.googleAuth Demo.hmac Demo.env_idToken
                   (Demo.google_body "eyJhbGciOi") Demo.store) in
  AuthController.login Demo.hmac Demo.bcrypt_compare Demo.isEmail (Demo.env true)
    (Demo.login_body "carol@example.com" "Str0ng!Pass") s1
  = (inr (res_status_json 401 (J_error "Invalid email or password")), s1).
Proof.
  cbv zeta.
  destruct (google_account_has_no_password_login Demo.hmac Demo.bcrypt_compare
              Demo.isEmail Demo.env_idToken (Demo.env true)
              (Demo.google_body "eyJhbGciOi")
              (Demo.login_body "carol@example.com" "Str0ng!Pass") Demo.store
              "eyJhbGciOi" Demo.google_carol "carol@example.com" "Str0ng!Pass"
              ltac:(discriminate) eq_refl eq_refl
              eq_refl eq_refl eq_refl eq_refl eq_refl)
    as (resp & s1 & G & _ & _ & L).
  rewrite G. cbn [snd]. exact L.
Defined.

(** Carol signs in with Google twice. *)
Lemma googleAuth_twice_one_user_witness :
  let s1 := snd (AuthController.googleAuth Demo.hmac Demo.env_idToken
                   (Demo.google_body "eyJhbGciOi") Demo.store) in
  let s2 := snd (AuthController.googleAuth Demo.hmac Demo.env_idToken
                   (Demo.google_body "eyJhbGciOi") s1) in
  List.length (users s2) = 3%nat /\ List.length (refreshTokens s2) = 4%nat.
Proof.
  cbv zeta.
  destruct (googleAuth_twice_one_user Demo.hmac Demo.env_idToken Demo.env_idToken
              (Demo.google_body "eyJhbGciOi") (Demo.google_body "eyJhbGciOi")
              Demo.store "eyJhbGciOi" "eyJhbGciOi" Demo.google_carol Demo.google_carol
              "carol@example.com" ltac:(discriminate) ltac:(discriminate)
              eq_refl eq_refl eq_refl
              eq_refl eq_refl eq_refl eq_refl eq_refl eq_refl eq_refl)
    as (r1 & s1 & r2 & s2 & G1 & G2 & _ & _ & U1 & U2 & R).
  rewrite G1. cbn [snd]. rewrite G2. cbn [snd].
  rewrite U2, U1, R. split; reflexivity.
Defined.

(** Alice's access token, a minute after her login. *)
Lemma login_access_token_admitted_witness :
  let env := Demo.env true in
  let s' := snd (AuthController.login Demo.hmac Demo.bcrypt_compare Demo.isEmail env
                   (Demo.login_body "alice@example.com" "Valid123!") Demo.store) in
  middleware.authMiddleware Demo.hmac (at_time 1700000060000 env)
    (middleware.Bearer (AuthUtils.generateAccessToken Demo.hmac env "user-1")) s'
  = (inr (middleware.Next (middleware.attach Demo.alice)), s').
Proof.
  cbv zeta.
  destruct (login_access_token_admitted Demo.hmac Demo.bcrypt_compare Demo.isEmail
              (Demo.env true) (at_time 1700000060000 (Demo.env true))
              (Demo.login_body "alice@example.com" "Valid123!") Demo.store
              "alice@example.com" "Valid123!" Demo.alice
              (Demo.bcrypt_hash "Valid123!" "xy")
              eq_refl eq_refl eq_refl eq_refl ltac:(discriminate) eq_refl eq_refl
              ltac:(discriminate) eq_refl eq_refl)
    as (tokens & s' & L & A).
  rewrite L in *. cbn [snd].
  assert (E : tokens = token_pair Demo.hmac (Demo.env true) "user-1").
  { vm_compute in L. injection L as E _. exact (eq_sym E). }
  subst tokens. exact A.
Defined.


(** A login, a signup and a Google sign-in, served in turn. *)
Lemma served_rows_stay_owned_witness :
  rows_owned
    (routes.serve Demo.hmac Demo.bcrypt_hash Demo.bcrypt_compare Demo.isEmail
       [ (Demo.env true,
          routes.POST_login (Demo.login_body "alice@example.com" "Valid123!"));
         (Demo.env true,
          routes.POST_signup (Demo.signup_body "carol@example.com" "Str0ng!Pass" "Carol"));
         (Demo.env_idToken, routes.POST_google (Demo.google_body "eyJhbGciOi")) ]
       Demo.store) = true.
Proof.
  apply served_rows_stay_owned. reflexivity.
Defined.

Lemma served_emails_stay_unique_witness :
  emails_unique
    (routes.serve Demo.hmac Demo.bcrypt_hash Demo.bcrypt_compare Demo.isEmail
       [ (Demo.env true,
          routes.POST_signup (Demo.signup_body "carol@example.com" "Str0ng!Pass" "Carol"));
         (Demo.env_idToken, routes.POST_google (Demo.google_body "eyJhbGciOi"));
         (Demo.env true,
          routes.POST_signup (Demo.signup_body "carol@example.com" "Str0ng!Pass" "Caz")) ]
       Demo.store) = true.
Proof.
  apply served_emails_stay_unique. reflexivity.
Defined.
